(** * Pharrro Health Scribe: the discharge-summary workflow orchestrator

    A shallow embedding of [src/App.tsx] (the [App] component: its state,
    its state updaters, its event handlers and the [useEffect] that runs
    [runWorkflow]) and of the type declarations it imports
    ([AgentState], [AuditLogEntry], [Patient], ...).

    - A React state updater [prevState => ...] is a function
      [AgentState -> AgentState].
    - [runWorkflow] is an [async] function: it is split at every [await]
      into a synchronous prefix and the continuations that run when the
      awaited promise settles.  A suspended continuation is a [Task]; it
      keeps what its closure still uses of the state it was rendered with.
    - The component is a transition system on a [World]: the current
      state, the suspended continuations and the number of wall-clock
      readings made so far.  An [Event] is a call of one of the five entry
      points or the settling of one suspended [await]; timers and
      collaborators may settle in any order.
    - The setter calls of one synchronous stretch are committed together.
      After a commit the effect compares its dependency array
      [[status, patientId, patientData, synthesizedNotes, draftSummary]]
      with the previous render and, when it differs, calls [runWorkflow]
      on the new state.  In every stretch of the source the only setter
      call that changes a dependency is the last one, so the effect runs on
      the same states whether or not the calls are batched.
    - [new Date().toLocaleTimeString()] is a [clock] read once per appended
      entry; [getPatientData] is a lookup function; the two generation
      services answer through the [Outcome] of the [await]. *)

From Stdlib Require Import String Ascii List Lia Bool Arith.
From stdpp Require Import base decidable option list strings.
Import ListNotations.

(** ** Data model (the imported type declarations) *)

Record Demographics := {
  name : string;
  dob : string;
  nhs_number : string
}.

(** Field [status] of the source is [labStatus] here: a field name is
    declared once per Rocq module. *)
Record LabResult := {
  test : string;
  value : string;
  labStatus : string
}.

Record MedicationChange := {
  medication : string;
  dose : string;
  frequency : string;
  medStatus : string
}.

Record Patient := {
  id : string;
  demographics : Demographics;
  admission_reason : string;
  clinical_notes : string;
  lab_results : list LabResult;
  medication_changes : list MedicationChange
}.

(** ['pending' | 'in_progress' | 'completed' | 'error' | 'human_input'];
    ['error'] is [entry_error] (it is also an agent status and a field). *)
Inductive AuditLogStatus :=
| pending | in_progress | completed | entry_error | human_input.

Record AuditLogEntry := {
  step : string;
  entryStatus : AuditLogStatus;
  details : string;
  timestamp : string
}.

(** ['idle' | 'running' | 'awaiting_approval' | 'editing' | 'finished' |
    'error']; ['error'] is [status_error]. *)
Inductive AgentStatus :=
| idle | running | awaiting_approval | editing | finished | status_error.

Record AgentState := {
  patientId : option string;
  patientData : option Patient;
  synthesizedNotes : string;
  draftSummary : string;
  finalSummary : string;
  auditLog : list AuditLogEntry;
  status : AgentStatus;
  error : option string;
  editRequest : string
}.

#[global] Instance Demographics_eq_dec : EqDecision Demographics.
Proof. solve_decision. Defined.
#[global] Instance LabResult_eq_dec : EqDecision LabResult.
Proof. solve_decision. Defined.
#[global] Instance MedicationChange_eq_dec : EqDecision MedicationChange.
Proof. solve_decision. Defined.
#[global] Instance Patient_eq_dec : EqDecision Patient.
Proof. solve_decision. Defined.
#[global] Instance AuditLogStatus_eq_dec : EqDecision AuditLogStatus.
Proof. solve_decision. Defined.
#[global] Instance AuditLogEntry_eq_dec : EqDecision AuditLogEntry.
Proof. solve_decision. Defined.
#[global] Instance AgentStatus_eq_dec : EqDecision AgentStatus.
Proof. solve_decision. Defined.

(** ** JavaScript truthiness, as the guards of the source use it *)

(** A string is truthy when it is not empty. *)
Definition truthy (s : string) : bool :=
  match s with
  | EmptyString => false
  | String _ _ => true
  end.

(** [string | null]: [null] and the empty string are falsy. *)
Definition truthyId (o : option string) : bool :=
  match o with
  | Some s => truthy s
  | None => false
  end.

(** [Patient | null]: an object is truthy, [null] is not. *)
Definition present {A : Type} (o : option A) : bool :=
  match o with
  | Some _ => true
  | None => false
  end.

(** [details || log.details] with [details?: string]. *)
Definition orElse (details : option string) (prior : string) : string :=
  match details with
  | Some d => if truthy d then d else prior
  | None => prior
  end.

(** The double-quote character of the edit-request template. *)
Definition dquote : string := String (ascii_of_nat 34) EmptyString.

(** ** Constants *)

Definition INITIAL_STATE : AgentState := {|
  patientId := None;
  patientData := None;
  synthesizedNotes := EmptyString;
  draftSummary := EmptyString;
  finalSummary := EmptyString;
  auditLog := [];
  status := idle;
  error := None;
  editRequest := EmptyString
|}.

Definition ALL_WORKFLOW_STEPS : list string :=
  [ "Start Workflow"; "Retrieve Patient Data"; "Synthesize Clinical Notes";
    "Generate Draft Summary"; "Human Review"; "Finalize Summary";
    "Workflow Complete" ].

(** ** Object spreads [{ ...prevState, field: v }] *)

Definition withPatientId (v : option string) (s : AgentState) : AgentState :=
  {| patientId := v; patientData := patientData s;
     synthesizedNotes := synthesizedNotes s; draftSummary := draftSummary s;
     finalSummary := finalSummary s; auditLog := auditLog s;
     status := status s; error := error s; editRequest := editRequest s |}.

Definition withPatientData (v : option Patient) (s : AgentState) : AgentState :=
  {| patientId := patientId s; patientData := v;
     synthesizedNotes := synthesizedNotes s; draftSummary := draftSummary s;
     finalSummary := finalSummary s; auditLog := auditLog s;
     status := status s; error := error s; editRequest := editRequest s |}.

Definition withSynthesizedNotes (v : string) (s : AgentState) : AgentState :=
  {| patientId := patientId s; patientData := patientData s;
     synthesizedNotes := v; draftSummary := draftSummary s;
     finalSummary := finalSummary s; auditLog := auditLog s;
     status := status s; error := error s; editRequest := editRequest s |}.

Definition withDraftSummary (v : string) (s : AgentState) : AgentState :=
  {| patientId := patientId s; patientData := patientData s;
     synthesizedNotes := synthesizedNotes s; draftSummary := v;
     finalSummary := finalSummary s; auditLog := auditLog s;
     status := status s; error := error s; editRequest := editRequest s |}.

Definition withFinalSummary (v : string) (s : AgentState) : AgentState :=
  {| patientId := patientId s; patientData := patientData s;
     synthesizedNotes := synthesizedNotes s; draftSummary := draftSummary s;
     finalSummary := v; auditLog := auditLog s;
     status := status s; error := error s; editRequest := editRequest s |}.

Definition withAuditLog (v : list AuditLogEntry) (s : AgentState) : AgentState :=
  {| patientId := patientId s; patientData := patientData s;
     synthesizedNotes := synthesizedNotes s; draftSummary := draftSummary s;
     finalSummary := finalSummary s; auditLog := v;
     status := status s; error := error s; editRequest := editRequest s |}.

Definition withStatus (v : AgentStatus) (s : AgentState) : AgentState :=
  {| patientId := patientId s; patientData := patientData s;
     synthesizedNotes := synthesizedNotes s; draftSummary := draftSummary s;
     finalSummary := finalSummary s; auditLog := auditLog s;
     status := v; error := error s; editRequest := editRequest s |}.

Definition withError (v : option string) (s : AgentState) : AgentState :=
  {| patientId := patientId s; patientData := patientData s;
     synthesizedNotes := synthesizedNotes s; draftSummary := draftSummary s;
     finalSummary := finalSummary s; auditLog := auditLog s;
     status := status s; error := v; editRequest := editRequest s |}.

Definition withEditRequest (v : string) (s : AgentState) : AgentState :=
  {| patientId := patientId s; patientData := patientData s;
     synthesizedNotes := synthesizedNotes s; draftSummary := draftSummary s;
     finalSummary := finalSummary s; auditLog := auditLog s;
     status := status s; error := error s; editRequest := v |}.

(** ** The state updaters of the component *)

(** [addAuditLog(step, details, status)]: the updater appends one entry;
    [timestamp] is the value of [new Date().toLocaleTimeString()] when the
    updater runs.  (Every call in the source passes [status]; its default
    ['completed'] is never used.) *)
Definition addAuditLog (step details : string) (status : AuditLogStatus)
    (timestamp : string) (prevState : AgentState) : AgentState :=
  withAuditLog
    (auditLog prevState ++
       [ {| step := step; entryStatus := status; details := details;
            timestamp := timestamp |} ])
    prevState.

(** The arrow function mapped over the log by [updateAuditLogStatus]:
    [log.step === stepName ? { ...log, status, details: details || log.details } : log]. *)
Definition reviseEntry (stepName : string) (status : AuditLogStatus)
    (newDetails : option string) (log : AuditLogEntry) : AuditLogEntry :=
  if bool_decide (step log = stepName)
  then {| step := step log; entryStatus := status;
          details := orElse newDetails (details log);
          timestamp := timestamp log |}
  else log.

Definition updateAuditLogStatus (stepName : string) (status : AuditLogStatus)
    (details : option string) (prevState : AgentState) : AgentState :=
  withAuditLog (map (reviseEntry stepName status details) (auditLog prevState))
    prevState.

(** [handlePatientSelect(id)]: [{ ...INITIAL_STATE, patientId: id }]. *)
Definition handlePatientSelect (id : string) (_ : AgentState) : AgentState :=
  withPatientId (Some id) INITIAL_STATE.

(** [handleReset()]. *)
Definition handleReset (_ : AgentState) : AgentState := INITIAL_STATE.

(** The updater of [handleGenerate]. *)
Definition generateUpdater (prevState : AgentState) : AgentState :=
  withStatus running (withPatientId (patientId prevState) INITIAL_STATE).

(** [handleGenerate()]: returns at once when [state.patientId] is falsy. *)
Definition handleGenerate (state : AgentState) : AgentState :=
  if negb (truthyId (patientId state)) then state else generateUpdater state.

(** [handleApprove()]: two updaters, in this order. *)
Definition handleApprove (state : AgentState) : AgentState :=
  withStatus running
    (updateAuditLogStatus "Human Review" completed
       (Some "Clinician approved the draft summary.") state).

Definition editLogDetails (editRequest : string) : string :=
  "Clinician requested edits: " +:+ dquote +:+ editRequest +:+ dquote.

(** [handleRequestEdits(editRequest)]. *)
Definition handleRequestEdits (editRequest : string) (prevState : AgentState)
    : AgentState :=
  withEditRequest editRequest
    (withStatus editing
       (withAuditLog
          (map (fun log =>
                  if bool_decide (step log = "Human Review")
                  then {| step := step log; entryStatus := completed;
                          details := editLogDetails editRequest;
                          timestamp := timestamp log |}
                  else log)
               (auditLog prevState))
          prevState)).

(** ** Reading the audit log *)

Definition matching (stepName : string) (log : list AuditLogEntry)
    : list AuditLogEntry :=
  filter (fun e => step e = stepName) log.

Definition inProgressCount (log : list AuditLogEntry) : nat :=
  length (filter (fun e => entryStatus e = in_progress) log).

(** What an update may never touch: the step name and the timestamp. *)
Definition entryKey (e : AuditLogEntry) : string * string :=
  (step e, timestamp e).

(** [new] keeps every entry of [old] at its index, with the same step name
    and timestamp, and only adds entries after them. *)
Definition revisedFrom (old new : list AuditLogEntry) : Prop :=
  map entryKey old `prefix_of` map entryKey new.

(** ** [runWorkflow], split at its [await]s *)

(** One call of a state setter made by [runWorkflow]. *)
Inductive Update :=
| AddAuditLog (step details : string) (status : AuditLogStatus)
| UpdateAuditLogStatus (stepName : string) (status : AuditLogStatus)
    (details : option string)
| SetState (updater : AgentState -> AgentState).

(** A suspended continuation of [runWorkflow]: the [await] it waits at and
    what its closure still uses. *)
Inductive Task :=
| AwaitStartDelay (state : AgentState)
| AwaitLookupDelay (state : AgentState) (data : option Patient)
| AwaitSynthesis (patientData : Patient)
| AwaitDraft (stepName : string) (synthesizedNotes : string)
    (patientData : option Patient) (editRequest : string)
| AwaitFinalizeDelay.

(** How an awaited promise settles: a timer fires, a collaborator resolves
    with text, or it rejects and [e.message] is the given string. *)
Inductive Outcome :=
| TimerFired
| Resolved (text : string)
| Rejected (message : string).

(** [${state.patientId}] in a template literal. *)
Definition idText (o : option string) : string :=
  match o with
  | Some s => s
  | None => "null"
  end.

(** The four guards of [runWorkflow], in source order. *)
Definition startRetrievePre (state : AgentState) : bool :=
  bool_decide (status state = running)
  && bool_decide (length (auditLog state) = 0)
  && truthyId (patientId state).

Definition synthesizePre (state : AgentState) : bool :=
  bool_decide (status state = running)
  && present (patientData state)
  && negb (truthy (synthesizedNotes state)).

Definition draftPre (state : AgentState) : bool :=
  (bool_decide (status state = running)
   && truthy (synthesizedNotes state)
   && negb (truthy (draftSummary state)))
  || bool_decide (status state = editing).

Definition finalizePre (state : AgentState) : bool :=
  bool_decide (status state = running)
  && truthy (draftSummary state)
  && negb (truthy (finalSummary state)).

Definition failWith (message : string) (prevState : AgentState) : AgentState :=
  withError (Some message) (withStatus status_error prevState).

(** The synchronous prefix of [runWorkflow] on the rendered [state]: the
    setter calls it makes and the [await] it stops at. *)
Definition runWorkflow (state : AgentState) : list Update * option Task :=
  if startRetrievePre state then
    ([ AddAuditLog "Start Workflow"
         ("Initiating summary generation for patient: "
          +:+ idText (patientId state)) in_progress ],
     Some (AwaitStartDelay state))
  else if synthesizePre state then
    match patientData state with
    | Some patient =>
      ([ AddAuditLog "Synthesize Clinical Notes"
           "Using Gemini to synthesize patient data." in_progress ],
       Some (AwaitSynthesis patient))
    | None => ([], None)
    end
  else if draftPre state then
    let isEditing := bool_decide (status state = editing) in
    let stepName : string :=
      if isEditing then "Regenerate Draft" else "Generate Draft Summary" in
    ((if isEditing
      then [ AddAuditLog stepName
               "Applying requested edits and regenerating summary." in_progress;
             SetState (withStatus running) ]
      else [ AddAuditLog stepName
               "Using Gemini to create draft summary." in_progress ]),
     Some (AwaitDraft stepName (synthesizedNotes state) (patientData state)
             (editRequest state)))
  else if finalizePre state then
    ([ AddAuditLog "Finalize Summary" "Finalizing the document." in_progress ],
     Some AwaitFinalizeDelay)
  else ([], None).

(** The four steps of the workflow, and the guard of each. *)
Inductive StepId := StartRetrieve | Synthesize | Draft | Finalize.

Definition guardOf (k : StepId) : AgentState -> bool :=
  match k with
  | StartRetrieve => startRetrievePre
  | Synthesize => synthesizePre
  | Draft => draftPre
  | Finalize => finalizePre
  end.

(** The step [runWorkflow] picks: the first guard that holds, in source
    order, and at most one step per call. *)
Definition eligible (state : AgentState) : option StepId :=
  if startRetrievePre state then Some StartRetrieve
  else if synthesizePre state then Some Synthesize
  else if draftPre state then Some Draft
  else if finalizePre state then Some Finalize
  else None.

Section Orchestrator.

(** The [n]-th reading of [new Date().toLocaleTimeString()]. *)
Variable clock : nat -> string.

(** The patient record gateway [getPatientData]: a synchronous lookup. *)
Variable getPatientData : string -> option Patient.

(** The continuation of [runWorkflow] after the [await] of [task] settles
    with [outcome]; [None] when the promise cannot settle that way. *)
Definition resume (task : Task) (outcome : Outcome)
    : option (list Update * option Task) :=
  match task, outcome with
  | AwaitStartDelay state, TimerFired =>
    Some ([ AddAuditLog "Retrieve Patient Data"
              "Fetching patient record from database." in_progress ],
          Some (AwaitLookupDelay state
                  (getPatientData (idText (patientId state)))))
  | AwaitLookupDelay state (Some data), TimerFired =>
    Some ([ UpdateAuditLogStatus "Start Workflow" completed None;
            UpdateAuditLogStatus "Retrieve Patient Data" completed
              (Some ("Successfully fetched data for "
                     +:+ name (demographics data) +:+ "."));
            SetState (withPatientData (Some data)) ],
          None)
  | AwaitLookupDelay state None, TimerFired =>
    let errorMsg : string :=
      "Patient ID " +:+ idText (patientId state) +:+ " not found." in
    Some ([ UpdateAuditLogStatus "Retrieve Patient Data" entry_error
              (Some errorMsg);
            SetState (failWith errorMsg) ],
          None)
  | AwaitSynthesis _, Resolved notes =>
    Some ([ UpdateAuditLogStatus "Synthesize Clinical Notes" completed
              (Some "Synthesis complete.");
            SetState (withSynthesizedNotes notes) ],
          None)
  | AwaitSynthesis _, Rejected message =>
    Some ([ UpdateAuditLogStatus "Synthesize Clinical Notes" entry_error
              (Some message);
            SetState (failWith message) ],
          None)
  | AwaitDraft stepName _ _ _, Resolved draft =>
    Some ([ UpdateAuditLogStatus stepName completed
              (Some "Draft generated. Awaiting human review.");
            AddAuditLog "Human Review" "Waiting for clinician approval."
              human_input;
            SetState (fun prevState =>
              withEditRequest EmptyString
                (withStatus awaiting_approval
                   (withDraftSummary draft prevState))) ],
          None)
  | AwaitDraft stepName _ _ _, Rejected message =>
    Some ([ UpdateAuditLogStatus stepName entry_error (Some message);
            SetState (failWith message) ],
          None)
  | AwaitFinalizeDelay, TimerFired =>
    Some ([ UpdateAuditLogStatus "Finalize Summary" completed
              (Some "Discharge summary is complete.");
            AddAuditLog "Workflow Complete" "Process finished successfully."
              completed;
            SetState (fun prevState =>
              withStatus finished
                (withFinalSummary (draftSummary prevState) prevState)) ],
          None)
  | _, _ => None
  end.

(** ** The component as a transition system *)

Record World := {
  current : AgentState;
  suspended : list Task;
  clockReads : nat
}.

Definition applyUpdate (w : World) (u : Update) : World :=
  match u with
  | AddAuditLog step details status =>
    {| current :=
         addAuditLog step details status (clock (clockReads w)) (current w);
       suspended := suspended w;
       clockReads := S (clockReads w) |}
  | UpdateAuditLogStatus stepName status details =>
    {| current := updateAuditLogStatus stepName status details (current w);
       suspended := suspended w;
       clockReads := clockReads w |}
  | SetState updater =>
    {| current := updater (current w);
       suspended := suspended w;
       clockReads := clockReads w |}
  end.

Definition applyUpdates (us : list Update) (w : World) : World :=
  fold_left applyUpdate us w.

Definition spawn (task : option Task) (w : World) : World :=
  match task with
  | Some t =>
    {| current := current w; suspended := suspended w ++ [t];
       clockReads := clockReads w |}
  | None => w
  end.

(** The dependency array of the effect:
    [[state.status, state.patientId, state.patientData,
      state.synthesizedNotes, state.draftSummary]].
    Patient records are compared by content: the gateway is a pure lookup. *)
Definition deps (s : AgentState)
    : AgentStatus * option string * option Patient * string * string :=
  (status s, patientId s, patientData s, synthesizedNotes s, draftSummary s).

Definition depsChanged (rendered s : AgentState) : bool :=
  bool_decide (deps rendered <> deps s).

(** After a commit the effect runs [runWorkflow] on the new state when a
    dependency differs from the previous render; the setter calls of its
    synchronous prefix are a commit of their own. *)
Fixpoint flushEffects (fuel : nat) (rendered : AgentState) (w : World) : World :=
  match fuel with
  | 0 => w
  | S fuel' =>
    if depsChanged rendered (current w) then
      let state := current w in
      let '(updates, task) := runWorkflow state in
      flushEffects fuel' state (spawn task (applyUpdates updates w))
    else w
  end.

(** Two runs of the effect always suffice (see [flushEffects_settles]). *)
Definition commit (rendered : AgentState) (w : World) : World :=
  flushEffects 2 rendered w.

Definition setCurrent (s : AgentState) (w : World) : World :=
  {| current := s; suspended := suspended w; clockReads := clockReads w |}.

Definition removeTask (i : nat) (w : World) : World :=
  {| current := current w; suspended := delete i (suspended w);
     clockReads := clockReads w |}.

(** What can happen to the component: the five entry points offered to the
    presentation layer, and the settling of the [i]-th suspended [await]. *)
Inductive Event :=
| PatientSelect (id : string)
| Reset
| Generate
| Approve
| RequestEdits (editRequest : string)
| Settle (i : nat) (outcome : Outcome).

Definition dispatch (e : Event) (w : World) : option World :=
  match e with
  | PatientSelect id =>
    Some (commit (current w) (setCurrent (handlePatientSelect id (current w)) w))
  | Reset =>
    Some (commit (current w) (setCurrent (handleReset (current w)) w))
  | Generate =>
    Some (commit (current w) (setCurrent (handleGenerate (current w)) w))
  | Approve =>
    Some (commit (current w) (setCurrent (handleApprove (current w)) w))
  | RequestEdits editRequest =>
    Some (commit (current w)
            (setCurrent (handleRequestEdits editRequest (current w)) w))
  | Settle i outcome =>
    match suspended w !! i with
    | Some task =>
      match resume task outcome with
      | Some (updates, next) =>
        Some (commit (current w)
                (spawn next (applyUpdates updates (removeTask i w))))
      | None => None
      end
    | None => None
    end
  end.

Fixpoint run (es : list Event) (w : World) : option World :=
  match es with
  | [] => Some w
  | e :: es' =>
    match dispatch e w with
    | Some w' => run es' w'
    | None => None
    end
  end.

(** The component when it mounts: the effect runs once on [INITIAL_STATE],
    where no guard of [runWorkflow] holds. *)
Definition mounted : World :=
  {| current := INITIAL_STATE; suspended := []; clockReads := 0 |}.

(** ** Running to quiescence *)

(** The two content-generation collaborators, as functions of the arguments
    they are called with; each resolves with text or rejects. *)
Record Collaborators := {
  synthesizeClinicalData : Patient -> Outcome;
  generateDraftSummary : string -> option Patient -> string -> Outcome
}.

(** How the [await] of a suspended step settles. *)
Definition answer (c : Collaborators) (task : Task) : Outcome :=
  match task with
  | AwaitStartDelay _ | AwaitLookupDelay _ _ | AwaitFinalizeDelay => TimerFired
  | AwaitSynthesis patient => synthesizeClinicalData c patient
  | AwaitDraft _ notes patient request =>
    generateDraftSummary c notes patient request
  end.

(** The machine is left to run, oldest suspended step first, until no step
    is suspended. *)
Inductive settles (c : Collaborators) : World -> World -> Prop :=
| settles_done w :
    suspended w = [] -> settles c w w
| settles_next w task rest w' w'' :
    suspended w = task :: rest ->
    dispatch (Settle 0 (answer c task)) w = Some w' ->
    settles c w' w'' ->
    settles c w w''.

Fixpoint settleAll (fuel : nat) (c : Collaborators) (w : World) : option World :=
  match suspended w with
  | [] => Some w
  | task :: _ =>
    match fuel with
    | 0 => None
    | S fuel' =>
      match dispatch (Settle 0 (answer c task)) w with
      | Some w' => settleAll fuel' c w'
      | None => None
      end
    end
  end.

(** The happy path as the specification words it: the patient id resolves,
    synthesis returns [notes], drafting returns [draft], the machine runs
    until it waits, [approve()] is called, and the machine runs again. *)
Definition happyPathClaim (c : Collaborators) (X : string) : Prop :=
  forall patient notes draft w0 w1 w2 w3,
    truthy X = true ->
    getPatientData X = Some patient ->
    (forall p, synthesizeClinicalData c p = Resolved notes) ->
    (forall n p r, generateDraftSummary c n p r = Resolved draft) ->
    run [ PatientSelect X; Generate ] mounted = Some w0 ->
    settles c w0 w1 ->
    dispatch Approve w1 = Some w2 ->
    settles c w2 w3 ->
    status (current w3) = finished
    /\ finalSummary (current w3) = draftSummary (current w3)
    /\ exists e, last (auditLog (current w3)) = Some e
                 /\ step e = "Workflow Complete"
                 /\ entryStatus e = completed.

(** ** One evaluation pass, taken alone *)

(** The continuations of a step, fed the outcomes of its [await]s in turn;
    the effect is not re-run in between. *)
Fixpoint finish (outcomes : list Outcome) (task : option Task) (w : World)
    : option World :=
  match task, outcomes with
  | None, [] => Some w
  | Some t, o :: outcomes' =>
    match resume t o with
    | Some (updates, next) => finish outcomes' next (applyUpdates updates w)
    | None => None
    end
  | _, _ => None
  end.

(** [runWorkflow] on the current state, run to its end. *)
Definition evaluationPass (outcomes : list Outcome) (w : World) : option World :=
  let '(updates, task) := runWorkflow (current w) in
  finish outcomes task (applyUpdates updates w).

(** The claim that every step falsifies its own guard when it has run. *)
Definition ownGuardFalsified : Prop :=
  forall w outcomes w' k,
    eligible (current w) = Some k ->
    evaluationPass outcomes w = Some w' ->
    guardOf k (current w') = false.

(** ** Reachable states *)

(** Everything the component can get to from its mount. *)
Definition reachable (w : World) : Prop :=
  exists es, run es mounted = Some w.

(** The claim that at most one audit entry is ever in_progress. *)
Definition singleInProgress : Prop :=
  forall w, reachable w -> inProgressCount (auditLog (current w)) <= 1.

(** A run of one patient in which the reviewer only ever approves: suspended
    steps settle, [generate()] is used on an idle state, and [approve()] is
    used when the machine waits for it. *)
Definition permitted (w : World) (e : Event) : Prop :=
  match e with
  | Settle _ _ => True
  | Generate => status (current w) = idle
  | Approve => status (current w) = awaiting_approval
  | PatientSelect _ | Reset | RequestEdits _ => False
  end.

Inductive reachableWithoutEdits : World -> Prop :=
| rwe_selected w id :
    suspended w = [] ->
    reachableWithoutEdits (setCurrent (handlePatientSelect id (current w)) w)
| rwe_step w e w' :
    reachableWithoutEdits w -> permitted w e -> dispatch e w = Some w' ->
    reachableWithoutEdits w'.

(** Is the machine waiting on the patient lookup of step 1? *)
Definition awaitingLookup (w : World) : bool :=
  match suspended w with
  | [ AwaitLookupDelay _ _ ] => true
  | _ => false
  end.

(** The shapes a world has along such a run. *)
Inductive Phase : World -> Prop :=
| phase_idle s n :
    status s = idle -> inProgressCount (auditLog s) = 0 ->
    Phase {| current := s; suspended := []; clockReads := n |}
| phase_starting s st n e :
    status s = running -> patientData s = None ->
    synthesizedNotes s = EmptyString -> draftSummary s = EmptyString ->
    finalSummary s = EmptyString ->
    auditLog s = [e] -> step e = "Start Workflow" ->
    Phase {| current := s; suspended := [AwaitStartDelay st]; clockReads := n |}
| phase_lookup s st data n e1 e2 :
    status s = running -> patientData s = None ->
    synthesizedNotes s = EmptyString -> draftSummary s = EmptyString ->
    finalSummary s = EmptyString ->
    auditLog s = [e1; e2] ->
    step e1 = "Start Workflow" -> step e2 = "Retrieve Patient Data" ->
    Phase {| current := s; suspended := [AwaitLookupDelay st data];
             clockReads := n |}
| phase_synthesis s patient n l e :
    status s = running -> present (patientData s) = true ->
    synthesizedNotes s = EmptyString -> draftSummary s = EmptyString ->
    finalSummary s = EmptyString ->
    auditLog s = l ++ [e] -> inProgressCount l = 0 ->
    step e = "Synthesize Clinical Notes" ->
    Phase {| current := s; suspended := [AwaitSynthesis patient];
             clockReads := n |}
| phase_drafting s notes patient request n l e :
    status s = running -> truthy (synthesizedNotes s) = true ->
    draftSummary s = EmptyString -> finalSummary s = EmptyString ->
    auditLog s = l ++ [e] -> inProgressCount l = 0 ->
    step e = "Generate Draft Summary" ->
    Phase {| current := s;
             suspended := [AwaitDraft "Generate Draft Summary" notes patient
                             request];
             clockReads := n |}
| phase_review s n :
    status s = awaiting_approval -> truthy (synthesizedNotes s) = true ->
    finalSummary s = EmptyString ->
    auditLog s <> [] -> inProgressCount (auditLog s) = 0 ->
    Phase {| current := s; suspended := []; clockReads := n |}
| phase_finalizing s n l e :
    status s = running ->
    auditLog s = l ++ [e] -> inProgressCount l = 0 ->
    step e = "Finalize Summary" ->
    Phase {| current := s; suspended := [AwaitFinalizeDelay]; clockReads := n |}
| phase_stopped s n :
    status s <> idle -> status s <> awaiting_approval ->
    inProgressCount (auditLog s) <= 1 ->
    Phase {| current := s; suspended := []; clockReads := n |}.

(** ** States along the first steps *)

(** The state in which step 2 waits for the synthesis: patient [X] with
    record [patient], the log as steps 1 and 2 have written it, the first
    clock reading being the [n]-th. *)
Definition synthesizing (X : string) (patient : Patient) (n : nat) : AgentState := {|
  patientId := Some X;
  patientData := Some patient;
  synthesizedNotes := EmptyString;
  draftSummary := EmptyString;
  finalSummary := EmptyString;
  auditLog :=
    [ {| step := "Start Workflow"; entryStatus := completed;
         details := "Initiating summary generation for patient: " +:+ X;
         timestamp := clock n |};
      {| step := "Retrieve Patient Data"; entryStatus := completed;
         details := "Successfully fetched data for "
                    +:+ name (demographics patient) +:+ ".";
         timestamp := clock (S n) |};
      {| step := "Synthesize Clinical Notes"; entryStatus := in_progress;
         details := "Using Gemini to synthesize patient data.";
         timestamp := clock (S (S n)) |} ];
  status := running;
  error := None;
  editRequest := EmptyString
|}.

(** The state in which step 3 waits for the first draft. *)
Definition drafting (X : string) (patient : Patient) (notes : string) (n : nat)
    : AgentState := {|
  patientId := Some X;
  patientData := Some patient;
  synthesizedNotes := notes;
  draftSummary := EmptyString;
  finalSummary := EmptyString;
  auditLog :=
    [ {| step := "Start Workflow"; entryStatus := completed;
         details := "Initiating summary generation for patient: " +:+ X;
         timestamp := clock n |};
      {| step := "Retrieve Patient Data"; entryStatus := completed;
         details := "Successfully fetched data for "
                    +:+ name (demographics patient) +:+ ".";
         timestamp := clock (S n) |};
      {| step := "Synthesize Clinical Notes"; entryStatus := completed;
         details := "Synthesis complete.";
         timestamp := clock (S (S n)) |};
      {| step := "Generate Draft Summary"; entryStatus := in_progress;
         details := "Using Gemini to create draft summary.";
         timestamp := clock (S (S (S n))) |} ];
  status := running;
  error := None;
  editRequest := EmptyString
|}.

End Orchestrator.

(** ** A concrete environment for the examples *)

Definition samplePatient : Patient := {|
  id := "P1";
  demographics := {| name := "Ada Byron"; dob := "1815-12-10";
                     nhs_number := "943 476 5919" |};
  admission_reason := "Chest pain";
  clinical_notes := "Admitted overnight for observation.";
  lab_results := [ {| test := "Troponin"; value := "12 ng/L";
                      labStatus := "normal" |} ];
  medication_changes := [ {| medication := "Aspirin"; dose := "75mg";
                             frequency := "daily"; medStatus := "started" |} ]
|}.

Definition sampleGateway (id : string) : option Patient :=
  if bool_decide (id = "P1") then Some samplePatient else None.

Definition sampleClock (n : nat) : string :=
  "10:00:0" +:+ String (ascii_of_nat (48 + n mod 10)) EmptyString.

(** ** The claim of first-match semantics, as the specification words it *)

(** Every entry with the given step name that comes after another such
    entry is left as it was. *)
Definition firstMatchOnly (stepName : string) (status : AuditLogStatus)
    (details : option string) (s : AgentState) : Prop :=
  2 <= length (matching stepName (auditLog s)) ->
  forall i j first later,
    i < j ->
    auditLog s !! i = Some first -> step first = stepName ->
    auditLog s !! j = Some later -> step later = stepName ->
    auditLog (updateAuditLogStatus stepName status details s) !! j = Some later.

(** An audit log after one edit cycle: two review entries. *)
Definition twoReviews : AgentState :=
  withStatus awaiting_approval
    (withAuditLog
       [ {| step := "Human Review"; entryStatus := completed;
            details := editLogDetails "shorten"; timestamp := "10:00:04" |};
         {| step := "Regenerate Draft"; entryStatus := completed;
            details := "Draft generated. Awaiting human review.";
            timestamp := "10:00:05" |};
         {| step := "Human Review"; entryStatus := human_input;
            details := "Waiting for clinician approval.";
            timestamp := "10:00:09" |} ]
       INITIAL_STATE).

(** A [setState] call that leaves the audit log alone. *)
Definition logSafe (u : Update) : Prop :=
  match u with
  | SetState updater => forall s, auditLog (updater s) = auditLog s
  | _ => True
  end.

(** The operations of a run: a step's continuation, [approve()] and
    [requestEdits(text)].  The other three entry points replace the state
    wholesale and start over. *)
Definition withinRun (e : Event) : Prop :=
  match e with
  | Approve | RequestEdits _ | Settle _ _ => True
  | PatientSelect _ | Reset | Generate => False
  end.

(** Collaborators that always resolve with the same text. *)
Definition constantCollaborators (notes draft : string) : Collaborators := {|
  synthesizeClinicalData := fun _ => Resolved notes;
  generateDraftSummary := fun _ _ _ => Resolved draft
|}.

(** The world reached by [es] from the mount in the concrete environment
    (the mount itself when [es] cannot happen). *)
Definition worldAfter (es : list Event) : World :=
  match run sampleClock sampleGateway es mounted with
  | Some w => w
  | None => mounted
  end.

(** Patient "P1" selected, the workflow started and run up to the review:
    notes "N", draft "D1", status awaiting_approval. *)
Definition awaitingReview : World :=
  worldAfter [ PatientSelect "P1"; Generate; Settle 0 TimerFired;
               Settle 0 TimerFired; Settle 0 (Resolved "N");
               Settle 0 (Resolved "D1") ].

(** How an audit log reads: step names and statuses. *)
Definition outline (log : list AuditLogEntry) : list (string * AuditLogStatus) :=
  map (fun e => (step e, entryStatus e)) log.

(** The state handed to [runWorkflow] when step 1 has stored the record of
    "P1": the guard of step 2 holds. *)
Definition patientLoaded : World := {|
  current := {|
    patientId := Some "P1";
    patientData := Some samplePatient;
    synthesizedNotes := EmptyString;
    draftSummary := EmptyString;
    finalSummary := EmptyString;
    auditLog :=
      [ {| step := "Start Workflow"; entryStatus := completed;
           details := "Initiating summary generation for patient: P1";
           timestamp := "10:00:00" |};
        {| step := "Retrieve Patient Data"; entryStatus := completed;
           details := "Successfully fetched data for Ada Byron.";
           timestamp := "10:00:01" |} ];
    status := running;
    error := None;
    editRequest := EmptyString |};
  suspended := [];
  clockReads := 2
|}.

(** The same run with the draft approved: step 4 is under way. *)
Definition approvedReview : World :=
  worldAfter [ PatientSelect "P1"; Generate; Settle 0 TimerFired;
               Settle 0 TimerFired; Settle 0 (Resolved "N");
               Settle 0 (Resolved "D1"); Approve ].

(** The error banner of the rendered page: [{state.error && (...)}]. *)
Definition errorBannerShown (s : AgentState) : bool := truthyId (error s).

(** A setter call that keeps the property [P] of the state. *)
Definition keeps (P : AgentState -> Prop) (u : Update) : Prop :=
  match u with
  | SetState updater => forall s, P s -> P (updater s)
  | AddAuditLog _ _ _ | UpdateAuditLogStatus _ _ _ => True
  end.

(** A property of the state that does not read the audit log. *)
Definition logBlind (P : AgentState -> Prop) : Prop :=
  forall l s, P s -> P (withAuditLog l s).

(** Patient "P1" selected and started, the patient lookup still waiting. *)
Definition lookupPending : World :=
  worldAfter [ PatientSelect "P1"; Generate; Settle 0 TimerFired ].


(** * Theorems *)

(** ** The audit log updaters *)

Lemma reviseEntry_match stepName status details' e :
  step e = stepName ->
  reviseEntry stepName status details' e
  = {| step := step e; entryStatus := status;
       details := orElse details' (details e); timestamp := timestamp e |}.
Proof.
  intros H. unfold reviseEntry.
  rewrite (bool_decide_eq_true_2 (step e = stepName) H). reflexivity.
Qed.

Lemma reviseEntry_other stepName status details' e :
  step e <> stepName -> reviseEntry stepName status details' e = e.
Proof.
  intros H. unfold reviseEntry.
  rewrite (bool_decide_eq_false_2 (step e = stepName) H). reflexivity.
Qed.

Lemma reviseEntry_key stepName status details e :
  entryKey (reviseEntry stepName status details e) = entryKey e.
Proof. unfold reviseEntry. case_bool_decide; reflexivity. Qed.

Lemma updateAuditLogStatus_keys stepName status details s :
  map entryKey (auditLog (updateAuditLogStatus stepName status details s))
  = map entryKey (auditLog s).
Proof.
  unfold updateAuditLogStatus. simpl. rewrite map_map.
  apply map_ext. intros e. apply reviseEntry_key.
Qed.

Lemma updateAuditLogStatus_lookup stepName status details s i :
  auditLog (updateAuditLogStatus stepName status details s) !! i
  = reviseEntry stepName status details <$> auditLog s !! i.
Proof. unfold updateAuditLogStatus. simpl. apply list_lookup_fmap. Qed.

(** C1, as the code has it: [updateAuditLogStatus] rewrites the status of
    every entry whose step name equals the given name, wherever it stands in
    the log, and its details when non-empty details are given; step name and
    timestamp are kept, entries with another step name are left as they
    were, and the log keeps its length. *)
Theorem updateAuditLogStatus_every_match
    (stepName : string) (status : AuditLogStatus) (details' : option string)
    (s : AgentState) (i : nat) (e : AuditLogEntry)
    (Hi : auditLog s !! i = Some e) :
  (step e = stepName ->
   auditLog (updateAuditLogStatus stepName status details' s) !! i
   = Some {| step := step e; entryStatus := status;
             details := orElse details' (details e);
             timestamp := timestamp e |})
  /\ (step e <> stepName ->
      auditLog (updateAuditLogStatus stepName status details' s) !! i = Some e)
  /\ length (auditLog (updateAuditLogStatus stepName status details' s))
     = length (auditLog s).
Proof.
  rewrite updateAuditLogStatus_lookup, Hi. simpl. unfold reviseEntry.
  split; [|split].
  - intros Heq. rewrite bool_decide_eq_true_2 by exact Heq. reflexivity.
  - intros Hne. rewrite bool_decide_eq_false_2 by exact Hne. reflexivity.
  - unfold updateAuditLogStatus. simpl. apply length_map.
Qed.

(** The later of two review entries is rewritten as well. *)
Lemma updateAuditLogStatus_every_match_witness :
  auditLog (updateAuditLogStatus "Human Review" completed
              (Some "Clinician approved the draft summary.") twoReviews) !! 2
  = Some {| step := "Human Review"; entryStatus := completed;
            details := "Clinician approved the draft summary.";
            timestamp := "10:00:09" |}.
Proof.
  refine (proj1 (updateAuditLogStatus_every_match "Human Review" completed
                   (Some "Clinician approved the draft summary.") twoReviews 2
                   {| step := "Human Review"; entryStatus := human_input;
                      details := "Waiting for clinician approval.";
                      timestamp := "10:00:09" |} _) _); reflexivity.
Defined.

(** C1, counterexample: with two "Human Review" entries in the log the
    second one does not stay as it was. *)
Lemma updateAuditLogStatus_not_first_match_only :
  ~ firstMatchOnly "Human Review" completed
      (Some "Clinician approved the draft summary.") twoReviews.
Proof.
  intros H.
  specialize (H ltac:(vm_compute; lia) 0 2 _ _ ltac:(lia) eq_refl eq_refl
                eq_refl eq_refl).
  vm_compute in H. discriminate H.
Qed.

(** ** Commits and the effect *)

Lemma depsChanged_same s : depsChanged s s = false.
Proof. unfold depsChanged. apply bool_decide_eq_false_2. intros H. apply H. reflexivity. Qed.

Lemma depsChanged_status r s : status r <> status s -> depsChanged r s = true.
Proof.
  intros H. apply bool_decide_eq_true_2. unfold deps. intros E.
  apply H. congruence.
Qed.

Section OrchestratorFacts.

Variable clock : nat -> string.
Variable getPatientData : string -> option Patient.

#[local] Abbreviation applyUpdates := (applyUpdates clock).
#[local] Abbreviation flushEffects := (flushEffects clock).
#[local] Abbreviation commit := (commit clock).
#[local] Abbreviation resume := (resume getPatientData).
#[local] Abbreviation dispatch := (dispatch clock getPatientData).
#[local] Abbreviation run := (run clock getPatientData).

Lemma flushEffects_same fuel r w :
  depsChanged r (current w) = false -> flushEffects fuel r w = w.
Proof. intros H. destruct fuel; simpl; [reflexivity|]. rewrite H. reflexivity. Qed.

Lemma flushEffects_changed fuel r w :
  depsChanged r (current w) = true ->
  flushEffects (S fuel) r w
  = flushEffects fuel (current w)
      (spawn (snd (runWorkflow (current w)))
         (applyUpdates (fst (runWorkflow (current w))) w)).
Proof. intros H. simpl. rewrite H. destruct (runWorkflow (current w)). reflexivity. Qed.

(** No guard of [runWorkflow] holds: whether or not the effect runs, the
    commit changes nothing. *)
Lemma flushEffects_quiet fuel r w :
  runWorkflow (current w) = ([], None) -> flushEffects fuel r w = w.
Proof.
  intros H. destruct fuel; simpl; [reflexivity|].
  destruct (depsChanged r (current w)); [|reflexivity].
  rewrite H. simpl. apply flushEffects_same, depsChanged_same.
Qed.

Lemma setCurrent_current w : setCurrent (current w) w = w.
Proof. destruct w. reflexivity. Qed.

Lemma runWorkflow_not_active s :
  status s <> running -> status s <> editing -> runWorkflow s = ([], None).
Proof.
  intros Hr He. unfold runWorkflow, startRetrievePre, synthesizePre, draftPre,
    finalizePre.
  rewrite (bool_decide_eq_false_2 _ Hr), (bool_decide_eq_false_2 _ He).
  reflexivity.
Qed.

(** ** Reset *)

(** C7: whatever the state (completed, failed, mid-edit, with steps still
    suspended), [reset()] leaves exactly [INITIAL_STATE]: every text field
    empty, no patient record, an empty audit log, status idle, no error, and
    no patient id either. *)
Theorem reset_yields_initial_state (w : World) :
  exists w',
    dispatch Reset w = Some w'
    /\ current w' = INITIAL_STATE
    /\ withPatientId (patientId (current w')) INITIAL_STATE = current w'
    /\ synthesizedNotes (current w') = EmptyString
    /\ draftSummary (current w') = EmptyString
    /\ finalSummary (current w') = EmptyString
    /\ editRequest (current w') = EmptyString
    /\ patientData (current w') = None
    /\ auditLog (current w') = []
    /\ status (current w') = idle
    /\ error (current w') = None.
Proof.
  eexists. split; [reflexivity|].
  unfold commit. rewrite flushEffects_quiet by reflexivity.
  simpl. repeat split; reflexivity.
Qed.

(** ** Generate without a patient *)

Lemma handleGenerate_falsy s : truthyId (patientId s) = false -> handleGenerate s = s.
Proof. intros H. unfold handleGenerate. rewrite H. reflexivity. Qed.

(** C10: when no patient id is set, [generate()] changes nothing: the whole
    state, the suspended steps and the clock are as before. *)
Theorem generate_without_patient_is_noop (w : World)
    (Habsent : patientId (current w) = None) :
  dispatch Generate w = Some w
  /\ handleGenerate (current w) = current w.
Proof.
  assert (Hg : handleGenerate (current w) = current w).
  { apply handleGenerate_falsy. rewrite Habsent. reflexivity. }
  split; [|exact Hg].
  simpl. rewrite Hg, setCurrent_current. unfold commit.
  rewrite flushEffects_same by apply depsChanged_same. reflexivity.
Qed.

(** ** The reviewer's entry points *)

Lemma handleRequestEdits_log t s :
  auditLog (handleRequestEdits t s)
  = map (reviseEntry "Human Review" completed (Some (editLogDetails t)))
        (auditLog s).
Proof. reflexivity. Qed.

(** C9: neither [approve()] nor [requestEdits(t)] looks at the current
    status.  From every state [approve()] sets status running and marks
    every "Human Review" entry completed; [requestEdits(t)] sets status
    editing and stores [t] in [editRequest]; and the component never refuses
    either of them. *)
Theorem review_entry_points_unguarded (w : World) (t : string) :
  let s := current w in
  status (handleApprove s) = running
  /\ Forall (fun e => step e = "Human Review" -> entryStatus e = completed)
       (auditLog (handleApprove s))
  /\ map entryKey (auditLog (handleApprove s)) = map entryKey (auditLog s)
  /\ status (handleRequestEdits t s) = editing
  /\ editRequest (handleRequestEdits t s) = t
  /\ Forall (fun e => step e = "Human Review" -> entryStatus e = completed)
       (auditLog (handleRequestEdits t s))
  /\ is_Some (dispatch Approve w)
  /\ is_Some (dispatch (RequestEdits t) w).
Proof.
  assert (Hrev : forall d l,
    Forall (fun e => step e = "Human Review" -> entryStatus e = completed)
      (map (reviseEntry "Human Review" completed d) l)).
  { intros d l. induction l as [|e l IH]; simpl; constructor; [|exact IH].
    unfold reviseEntry. case_bool_decide as Hs; simpl; [reflexivity|].
    intros Hs'. contradiction. }
  simpl. repeat split.
  - apply Hrev.
  - apply updateAuditLogStatus_keys.
  - exact (Hrev (Some (editLogDetails t)) (auditLog (current w))).
  - eexists. reflexivity.
  - eexists. reflexivity.
Qed.

(** ** Two runs of the effect suffice *)

Lemma spawn_current t w : current (spawn t w) = current w.
Proof. destruct t; reflexivity. Qed.

(** Outside the editing branch the synchronous prefix only appends to the
    audit log, which is no dependency of the effect. *)
Lemma runWorkflow_keeps_deps s w :
  status s <> editing ->
  deps (current (applyUpdates (fst (runWorkflow s)) w)) = deps (current w).
Proof.
  intros He. unfold runWorkflow.
  destruct (startRetrievePre s); [reflexivity|].
  destruct (synthesizePre s); [destruct (patientData s); reflexivity|].
  destruct (draftPre s).
  { rewrite (bool_decide_eq_false_2 _ He). reflexivity. }
  destruct (finalizePre s); reflexivity.
Qed.

(** In the editing branch it also sets status running. *)
Lemma runWorkflow_editing s w :
  status s = editing ->
  status (current (applyUpdates (fst (runWorkflow s)) w)) = running.
Proof.
  intros He. unfold runWorkflow, startRetrievePre, synthesizePre, draftPre.
  rewrite He. simpl. reflexivity.
Qed.

(** X9: the effect cannot loop.  After any commit [runWorkflow] is called
    at most twice before the dependencies stop changing (twice only in the
    editing branch, which sets status running): allowing more runs of the
    effect gives the same world. *)
Theorem flushEffects_settles n r w :
  flushEffects (2 + n) r w = flushEffects 2 r w.
Proof.
  change (2 + n) with (S (S n)).
  destruct (depsChanged r (current w)) eqn:Hc.
  2:{ rewrite !flushEffects_same by exact Hc. reflexivity. }
  rewrite (flushEffects_changed (S n) r w Hc), (flushEffects_changed 1 r w Hc).
  set (w1 := spawn _ _).
  destruct (depsChanged (current w) (current w1)) eqn:Hc1.
  2:{ rewrite !flushEffects_same by exact Hc1. reflexivity. }
  rewrite (flushEffects_changed n _ w1 Hc1), (flushEffects_changed 0 _ w1 Hc1).
  set (w2 := spawn _ _).
  assert (Hrun : status (current w1) <> editing).
  { destruct (decide (status (current w) = editing)) as [He|He].
    - subst w1. rewrite spawn_current, (runWorkflow_editing _ _ He). discriminate.
    - exfalso. subst w1. rewrite spawn_current in Hc1.
      unfold depsChanged in Hc1. apply bool_decide_eq_true_1 in Hc1.
      apply Hc1. symmetry. apply runWorkflow_keeps_deps, He. }
  simpl. apply flushEffects_same.
  unfold depsChanged. apply bool_decide_eq_false_2. intros H. apply H.
  subst w2. rewrite spawn_current. symmetry.
  apply runWorkflow_keeps_deps, Hrun.
Qed.

(** ** The audit log only grows or is revised *)

#[local] Instance revisedFrom_refl : Reflexive revisedFrom.
Proof. intros l. unfold revisedFrom. reflexivity. Qed.

#[local] Instance revisedFrom_trans : Transitive revisedFrom.
Proof. intros a b c. unfold revisedFrom. apply transitivity. Qed.

Lemma revisedFrom_keys old new :
  map entryKey old = map entryKey new -> revisedFrom old new.
Proof. unfold revisedFrom. intros ->. reflexivity. Qed.

Lemma addAuditLog_revises step details status ts s :
  revisedFrom (auditLog s) (auditLog (addAuditLog step details status ts s)).
Proof.
  unfold revisedFrom, addAuditLog. simpl. rewrite map_app.
  apply prefix_app_r. reflexivity.
Qed.

Lemma updateAuditLogStatus_revises stepName status details s :
  revisedFrom (auditLog s)
    (auditLog (updateAuditLogStatus stepName status details s)).
Proof. apply revisedFrom_keys. symmetry. apply updateAuditLogStatus_keys. Qed.

Lemma applyUpdate_revises w u :
  logSafe u ->
  revisedFrom (auditLog (current w)) (auditLog (current (applyUpdate clock w u))).
Proof.
  destruct u; simpl; intros H.
  - apply addAuditLog_revises.
  - apply updateAuditLogStatus_revises.
  - rewrite H. reflexivity.
Qed.

Lemma applyUpdates_revises us w :
  Forall logSafe us ->
  revisedFrom (auditLog (current w)) (auditLog (current (applyUpdates us w))).
Proof.
  intros H. revert w. induction H as [|u us Hu _ IH]; intros w; simpl.
  - reflexivity.
  - etransitivity; [apply applyUpdate_revises, Hu|apply IH].
Qed.

Lemma runWorkflow_logSafe s : Forall logSafe (fst (runWorkflow s)).
Proof.
  unfold runWorkflow.
  destruct (startRetrievePre s); [repeat constructor|].
  destruct (synthesizePre s); [destruct (patientData s); repeat constructor|].
  destruct (draftPre s).
  { destruct (bool_decide (status s = editing)); repeat constructor. }
  destruct (finalizePre s); repeat constructor.
Qed.

Lemma resume_logSafe task outcome us next :
  resume task outcome = Some (us, next) -> Forall logSafe us.
Proof.
  destruct task as [st|st [d|]| | |], outcome; simpl; intros H;
    inversion H; subst; repeat constructor.
Qed.

Lemma flushEffects_revises fuel r w :
  revisedFrom (auditLog (current w)) (auditLog (current (flushEffects fuel r w))).
Proof.
  revert r w. induction fuel as [|fuel IH]; intros r w; simpl; [reflexivity|].
  destruct (depsChanged r (current w)); [|reflexivity].
  destruct (runWorkflow (current w)) as [us t] eqn:Hrw.
  etransitivity; [|apply IH].
  rewrite spawn_current. apply applyUpdates_revises.
  pose proof (runWorkflow_logSafe (current w)) as H. rewrite Hrw in H. exact H.
Qed.

Lemma revisedFrom_lookup old new :
  revisedFrom old new ->
  length old <= length new
  /\ forall i e, old !! i = Some e ->
       exists e', new !! i = Some e' /\ step e' = step e
                  /\ timestamp e' = timestamp e.
Proof.
  unfold revisedFrom. intros H. split.
  - apply prefix_length in H. rewrite !length_map in H. exact H.
  - intros i e Hi.
    assert (Hk : map entryKey old !! i = Some (entryKey e)).
    { change (map entryKey old) with (entryKey <$> old).
      rewrite list_lookup_fmap, Hi. reflexivity. }
    eapply prefix_lookup_Some in Hk; [|exact H].
    change (map entryKey new) with (entryKey <$> new) in Hk.
    rewrite list_lookup_fmap in Hk.
    destruct (new !! i) as [e'|]; [|discriminate].
    exists e'. simpl in Hk. unfold entryKey in Hk.
    split; [reflexivity|]. split; congruence.
Qed.

Lemma dispatch_revises e w w' :
  withinRun e -> dispatch e w = Some w' ->
  revisedFrom (auditLog (current w)) (auditLog (current w')).
Proof.
  intros He Hd. destruct e as [| | | |t|i o]; try contradiction;
    simpl in Hd.
  - inversion Hd; subst; clear Hd. unfold commit.
    etransitivity; [|apply flushEffects_revises]. simpl.
    apply updateAuditLogStatus_revises.
  - inversion Hd; subst; clear Hd. unfold commit.
    etransitivity; [|apply flushEffects_revises].
    apply revisedFrom_keys. simpl. rewrite map_map. apply map_ext.
    intros e. unfold entryKey. case_bool_decide; reflexivity.
  - destruct (suspended w !! i) as [task|]; [|discriminate].
    destruct (resume task o) as [[us next]|] eqn:Hr; [|discriminate].
    inversion Hd; subst; clear Hd. unfold commit.
    etransitivity; [|apply flushEffects_revises].
    rewrite spawn_current.
    apply (applyUpdates_revises us (removeTask i w)).
    eapply resume_logSafe, Hr.
Qed.

(** C8: within a run the audit log is append-only.  Whatever a step's
    continuation, [approve()] or [requestEdits(text)] does, the log does not
    get shorter and every entry stays at its index with the step name and
    the timestamp it had: only status and details are rewritten, and new
    entries come after the old ones.  The same holds for the two log
    updaters themselves. *)
Theorem audit_log_append_only (e : Event) (w w' : World)
    (Hop : withinRun e) (Hstep : dispatch e w = Some w') :
  length (auditLog (current w)) <= length (auditLog (current w'))
  /\ (forall i old, auditLog (current w) !! i = Some old ->
        exists new, auditLog (current w') !! i = Some new
                    /\ step new = step old
                    /\ timestamp new = timestamp old)
  /\ (forall stepName status details s,
        map entryKey (auditLog (updateAuditLogStatus stepName status details s))
        = map entryKey (auditLog s))
  /\ (forall step details status ts s,
        auditLog (addAuditLog step details status ts s)
        = auditLog s ++ [ {| step := step; entryStatus := status;
                             details := details; timestamp := ts |} ]).
Proof.
  destruct (revisedFrom_lookup _ _ (dispatch_revises e w w' Hop Hstep))
    as [Hlen Hkeep].
  repeat split.
  - exact Hlen.
  - exact Hkeep.
  - intros. apply updateAuditLogStatus_keys.
Qed.

(** ** How a commit unfolds *)

Lemma commit_same r w : depsChanged r (current w) = false -> commit r w = w.
Proof. apply flushEffects_same. Qed.

Lemma commit_quiet r w : runWorkflow (current w) = ([], None) -> commit r w = w.
Proof. apply flushEffects_quiet. Qed.

(** One run of the effect, outside the editing branch. *)
Lemma commit_run r w us t :
  depsChanged r (current w) = true ->
  status (current w) <> editing ->
  runWorkflow (current w) = (us, t) ->
  commit r w = spawn t (applyUpdates us w).
Proof.
  intros Hc He Hrw. unfold commit. rewrite flushEffects_changed by exact Hc.
  pose proof (runWorkflow_keeps_deps (current w) w He) as Hk.
  rewrite Hrw in Hk |- *. cbn [fst snd] in Hk |- *.
  apply flushEffects_same. rewrite spawn_current.
  apply bool_decide_eq_false_2. intros H. apply H. symmetry. exact Hk.
Qed.

(** The editing branch: the effect runs, sets status running, and runs
    again on the state it has just produced. *)
Lemma commit_editing r w us t w1 :
  status (current w) = editing ->
  status r <> editing ->
  w1 = spawn (snd (runWorkflow (current w)))
         (applyUpdates (fst (runWorkflow (current w))) w) ->
  runWorkflow (current w1) = (us, t) ->
  commit r w = spawn t (applyUpdates us w1).
Proof.
  intros He Hr Hw1 Hrw. unfold commit.
  rewrite flushEffects_changed.
  2:{ apply depsChanged_status. rewrite He. exact Hr. }
  rewrite <- Hw1.
  assert (Hs1 : status (current w1) = running).
  { rewrite Hw1, spawn_current. apply runWorkflow_editing, He. }
  rewrite flushEffects_changed.
  2:{ apply depsChanged_status. rewrite He, Hs1. discriminate. }
  rewrite Hrw. reflexivity.
Qed.

(** ** Which guard of [runWorkflow] fires *)

Lemma startRetrievePre_nonempty s : auditLog s <> [] -> startRetrievePre s = false.
Proof.
  intros H. unfold startRetrievePre.
  rewrite (bool_decide_eq_false_2 (length (auditLog s) = 0)).
  - rewrite andb_false_r. reflexivity.
  - intros Hl. apply H. destruct (auditLog s); [reflexivity|discriminate].
Qed.

Lemma runWorkflow_start s pid :
  status s = running -> auditLog s = [] -> patientId s = Some pid ->
  truthy pid = true ->
  runWorkflow s
  = ([ AddAuditLog "Start Workflow"
         ("Initiating summary generation for patient: " +:+ pid) in_progress ],
     Some (AwaitStartDelay s)).
Proof.
  intros Hs Hl Hp Ht. unfold runWorkflow, startRetrievePre.
  rewrite Hs, Hl, Hp. simpl. rewrite Ht. reflexivity.
Qed.

Lemma runWorkflow_synthesize s patient :
  status s = running -> auditLog s <> [] -> patientData s = Some patient ->
  synthesizedNotes s = EmptyString ->
  runWorkflow s
  = ([ AddAuditLog "Synthesize Clinical Notes"
         "Using Gemini to synthesize patient data." in_progress ],
     Some (AwaitSynthesis patient)).
Proof.
  intros Hs Hl Hp Hn. unfold runWorkflow.
  rewrite (startRetrievePre_nonempty _ Hl). unfold synthesizePre.
  rewrite Hs, Hp, Hn. reflexivity.
Qed.

Lemma runWorkflow_draft s :
  status s = running -> auditLog s <> [] ->
  truthy (synthesizedNotes s) = true -> draftSummary s = EmptyString ->
  runWorkflow s
  = ([ AddAuditLog "Generate Draft Summary"
         "Using Gemini to create draft summary." in_progress ],
     Some (AwaitDraft "Generate Draft Summary" (synthesizedNotes s)
             (patientData s) (editRequest s))).
Proof.
  intros Hs Hl Hn Hd. unfold runWorkflow.
  rewrite (startRetrievePre_nonempty _ Hl). unfold synthesizePre, draftPre.
  rewrite Hs, Hn, Hd. simpl. rewrite andb_false_r. reflexivity.
Qed.

Lemma runWorkflow_finalize s :
  status s = running -> auditLog s <> [] ->
  truthy (synthesizedNotes s) = true -> truthy (draftSummary s) = true ->
  finalSummary s = EmptyString ->
  runWorkflow s
  = ([ AddAuditLog "Finalize Summary" "Finalizing the document." in_progress ],
     Some AwaitFinalizeDelay).
Proof.
  intros Hs Hl Hn Hd Hf. unfold runWorkflow.
  rewrite (startRetrievePre_nonempty _ Hl).
  unfold synthesizePre, draftPre, finalizePre.
  rewrite Hs, Hn, Hd, Hf. simpl. rewrite andb_false_r. reflexivity.
Qed.

Lemma runWorkflow_editing_branch s :
  status s = editing ->
  runWorkflow s
  = ([ AddAuditLog "Regenerate Draft"
         "Applying requested edits and regenerating summary." in_progress;
       SetState (withStatus running) ],
     Some (AwaitDraft "Regenerate Draft" (synthesizedNotes s)
             (patientData s) (editRequest s))).
Proof.
  intros Hs. unfold runWorkflow, startRetrievePre, synthesizePre, draftPre.
  rewrite Hs. reflexivity.
Qed.

(** ** Patient not found *)

Ltac deps_same :=
  apply bool_decide_eq_false_2;
  let H := fresh in intros H; apply H; reflexivity.

Ltac deps_status := apply depsChanged_status; simpl; discriminate.

Lemma dispatch_select X w :
  dispatch (PatientSelect X) w
  = Some (setCurrent (withPatientId (Some X) INITIAL_STATE) w).
Proof. simpl. rewrite commit_quiet by reflexivity. reflexivity. Qed.

(** [generate()] on a freshly selected patient starts step 1. *)
Lemma dispatch_generate_selected X ss n :
  truthy X = true ->
  dispatch Generate
    {| current := withPatientId (Some X) INITIAL_STATE; suspended := ss;
       clockReads := n |}
  = Some
      {| current :=
           addAuditLog "Start Workflow"
             ("Initiating summary generation for patient: " +:+ X) in_progress
             (clock n)
             (withStatus running (withPatientId (Some X) INITIAL_STATE));
         suspended :=
           ss ++ [ AwaitStartDelay
                     (withStatus running (withPatientId (Some X) INITIAL_STATE)) ];
         clockReads := S n |}.
Proof.
  intros Ht. simpl. unfold handleGenerate. simpl. rewrite Ht. simpl.
  erewrite commit_run; cycle 1.
  { deps_status. }
  { simpl; discriminate. }
  { apply runWorkflow_start with (pid := X); auto. }
  reflexivity.
Qed.

Lemma dispatch_settle_head task rest s n o us next :
  resume task o = Some (us, next) ->
  dispatch (Settle 0 o)
    {| current := s; suspended := task :: rest; clockReads := n |}
  = Some (commit s
            (spawn next
               (applyUpdates us
                  {| current := s; suspended := rest; clockReads := n |}))).
Proof. intros H. simpl. rewrite H. reflexivity. Qed.

(** C5: a workflow started for a patient id [X] that the gateway does not
    resolve ends with status error, the error field set to
    "Patient ID X not found.", the "Retrieve Patient Data" entry marked error
    with that message as its details, and no step left suspended.  ("Start
    Workflow" is still in_progress then.) *)
Theorem patient_not_found (X : string) (w : World)
    (Hstarted : truthy X = true)
    (Habsent : getPatientData X = None)
    (Hnone : suspended w = []) :
  exists w',
    run [ PatientSelect X; Generate; Settle 0 TimerFired; Settle 0 TimerFired ] w
    = Some w'
    /\ status (current w') = status_error
    /\ error (current w') = Some ("Patient ID " +:+ X +:+ " not found.")
    /\ auditLog (current w')
       = [ {| step := "Start Workflow"; entryStatus := in_progress;
              details := "Initiating summary generation for patient: " +:+ X;
              timestamp := clock (clockReads w) |};
           {| step := "Retrieve Patient Data"; entryStatus := entry_error;
              details := "Patient ID " +:+ X +:+ " not found.";
              timestamp := clock (S (clockReads w)) |} ]
    /\ suspended w' = [].
Proof.
  destruct w as [s0 ss n]. simpl in Hnone. subst ss.
  cbn [run]. rewrite dispatch_select. unfold setCurrent. cbn [suspended clockReads].
  rewrite (dispatch_generate_selected X [] n Hstarted).
  cbn [app].
  erewrite dispatch_settle_head by reflexivity.
  rewrite commit_same by deps_same.
  unfold applyUpdates.
  cbn [spawn fold_left applyUpdate current suspended clockReads app].
  rewrite (Habsent : getPatientData
             (idText (patientId
                (withStatus running (withPatientId (Some X) INITIAL_STATE))))
           = None).
  erewrite dispatch_settle_head by reflexivity.
  rewrite commit_quiet by (apply runWorkflow_not_active; simpl; discriminate).
  eexists. split; [reflexivity|].
  repeat split.
Qed.

(** ** The happy path *)

Lemma settleAll_settles fuel c w w' :
  settleAll clock getPatientData fuel c w = Some w' ->
  settles clock getPatientData c w w'.
Proof.
  revert w. induction fuel as [|fuel IH]; intros w; cbn [settleAll].
  - destruct (suspended w) eqn:Hs; [|discriminate].
    intros H. inversion H; subst. apply settles_done, Hs.
  - destruct (suspended w) as [|task rest] eqn:Hs.
    + intros H. inversion H; subst. apply settles_done, Hs.
    + destruct (dispatch (Settle 0 (answer c task)) w) as [w1|] eqn:Hd;
        [|discriminate].
      intros H. eapply settles_next; [exact Hs|exact Hd|apply IH, H].
Qed.

Lemma settles_deterministic c w a b :
  settles clock getPatientData c w a ->
  settles clock getPatientData c w b -> a = b.
Proof.
  intros Ha. revert b.
  induction Ha as [w Hs|w task rest w' w'' Hs Hd _ IH]; intros b Hb.
  - destruct Hb as [w _|w t r w1 w2 Hs' _ _]; [reflexivity|congruence].
  - destruct Hb as [w Hs'|w t r w1 w2 Hs' Hd' Hb]; [congruence|].
    apply IH. rewrite Hs in Hs'. injection Hs' as <- <-.
    rewrite Hd in Hd'. injection Hd' as <-. exact Hb.
Qed.

Lemma depsChanged_patientData r s :
  patientData r <> patientData s -> depsChanged r s = true.
Proof.
  intros H. apply bool_decide_eq_true_2. unfold deps. intros E.
  apply H. congruence.
Qed.

Lemma depsChanged_synthesizedNotes r s :
  synthesizedNotes r <> synthesizedNotes s -> depsChanged r s = true.
Proof.
  intros H. apply bool_decide_eq_true_2. unfold deps. intros E.
  apply H. congruence.
Qed.

Lemma truthy_nonempty s : truthy s = true -> s <> EmptyString.
Proof. destruct s; [discriminate|]. intros _. discriminate. Qed.

Ltac settle_head :=
  erewrite dispatch_settle_head by reflexivity;
  unfold applyUpdates;
  cbn [spawn fold_left applyUpdate current suspended clockReads app].

(** C4, for non-empty texts: when the patient id resolves to a record,
    synthesis returns non-empty notes and drafting returns a non-empty
    draft, the machine runs up to the review and waits; after [approve()] it
    runs to the end: status finished, [finalSummary] equal to
    [draftSummary], the audit log ending with a completed "Workflow
    Complete" entry, and nothing left suspended. *)
Theorem happy_path_finishes (X : string) (patient : Patient) (notes draft : string)
    (c : Collaborators) (w : World)
    (Hstarted : truthy X = true)
    (Hfound : getPatientData X = Some patient)
    (Hsynth : synthesizeClinicalData c patient = Resolved notes)
    (Hnotes : truthy notes = true)
    (Hdrafted : generateDraftSummary c notes (Some patient) EmptyString
                = Resolved draft)
    (Hdraft : truthy draft = true)
    (Hnone : suspended w = []) :
  exists w0 w1 w2 w3,
    run [ PatientSelect X; Generate ] w = Some w0
    /\ settles clock getPatientData c w0 w1
    /\ status (current w1) = awaiting_approval
    /\ dispatch Approve w1 = Some w2
    /\ settles clock getPatientData c w2 w3
    /\ suspended w3 = []
    /\ status (current w3) = finished
    /\ finalSummary (current w3) = draftSummary (current w3)
    /\ draftSummary (current w3) = draft
    /\ last (auditLog (current w3))
       = Some {| step := "Workflow Complete"; entryStatus := completed;
                 details := "Process finished successfully.";
                 timestamp := clock (6 + clockReads w) |}.
Proof.
  destruct w as [s0 ss n]. simpl in Hnone. subst ss.
  eexists. eexists. eexists. eexists.
  split.
  { cbn [run]. rewrite dispatch_select. unfold setCurrent.
    cbn [suspended clockReads].
    rewrite (dispatch_generate_selected X [] n Hstarted). reflexivity. }
  cbn [app].
  split.
  { eapply settles_next; [reflexivity| |].
    { cbn [answer]. settle_head. rewrite commit_same by deps_same.
      rewrite (Hfound : getPatientData
                 (idText (patientId
                    (withStatus running (withPatientId (Some X) INITIAL_STATE))))
               = Some patient).
      reflexivity. }
    eapply settles_next; [reflexivity| |].
    { cbn [answer]. settle_head.
      erewrite commit_run; cycle 1.
      { apply depsChanged_patientData. simpl. discriminate. }
      { simpl. discriminate. }
      { apply runWorkflow_synthesize with (patient := patient);
          [reflexivity|simpl; discriminate|reflexivity|reflexivity]. }
      unfold applyUpdates.
      cbn [spawn fold_left applyUpdate current suspended clockReads app].
      reflexivity. }
    eapply settles_next; [reflexivity| |].
    { cbn [answer]. rewrite Hsynth. settle_head.
      erewrite commit_run; cycle 1.
      { apply depsChanged_synthesizedNotes. simpl.
        intros E. symmetry in E. revert E. apply truthy_nonempty, Hnotes. }
      { simpl. discriminate. }
      { apply runWorkflow_draft;
          [reflexivity|simpl; discriminate|exact Hnotes|reflexivity]. }
      unfold applyUpdates.
      cbn [spawn fold_left applyUpdate current suspended clockReads app].
      reflexivity. }
    eapply settles_next; [reflexivity| |].
    { cbn [answer]. simpl synthesizedNotes. simpl patientData. simpl editRequest.
      rewrite Hdrafted. settle_head.
      rewrite commit_quiet
        by (apply runWorkflow_not_active; simpl; discriminate).
      reflexivity. }
    apply settles_done. reflexivity. }
  split; [reflexivity|].
  split.
  { cbn [dispatch current]. 
    erewrite commit_run; cycle 1.
    { deps_status. }
    { simpl. discriminate. }
    { apply runWorkflow_finalize;
        [reflexivity|simpl; discriminate|exact Hnotes|exact Hdraft|reflexivity]. }
    unfold applyUpdates.
    cbn [spawn fold_left applyUpdate current suspended clockReads app setCurrent].
    reflexivity. }
  split.
  { eapply settles_next; [reflexivity| |].
    { cbn [answer]. settle_head.
      rewrite commit_quiet
        by (apply runWorkflow_not_active; simpl; discriminate).
      reflexivity. }
    apply settles_done. reflexivity. }
  split; [reflexivity|].
  split; [reflexivity|].
  split; [reflexivity|].
  split; [reflexivity|].
  simpl. reflexivity.
Qed.

(** ** The edit cycle *)

(** An edit request on a reviewed draft starts two steps at once.  The
    effect runs on status editing and starts the regeneration, which sets
    status running; that change of status runs the effect again, and with
    a draft present and no final summary the guard of step 4 holds. *)
Lemma requestEdits_starts_two_steps s ss n t :
  status s = awaiting_approval ->
  truthy (synthesizedNotes s) = true ->
  truthy (draftSummary s) = true ->
  finalSummary s = EmptyString ->
  dispatch (RequestEdits t)
    {| current := s; suspended := ss; clockReads := n |}
  = Some
      {| current :=
           addAuditLog "Finalize Summary" "Finalizing the document."
             in_progress (clock (S n))
             (withStatus running
                (addAuditLog "Regenerate Draft"
                   "Applying requested edits and regenerating summary."
                   in_progress (clock n) (handleRequestEdits t s)));
         suspended :=
           (ss ++ [ AwaitDraft "Regenerate Draft" (synthesizedNotes s)
                      (patientData s) t ])
           ++ [ AwaitFinalizeDelay ];
         clockReads := S (S n) |}.
Proof.
  intros Hs Hn Hd Hf. cbn [dispatch current]. f_equal.
  erewrite commit_editing; cycle 1.
  { reflexivity. }
  { rewrite Hs. discriminate. }
  { rewrite runWorkflow_editing_branch by reflexivity. reflexivity. }
  { apply runWorkflow_finalize;
      [reflexivity| |exact Hn|exact Hd|exact Hf].
    simpl. intros E. apply app_eq_nil in E. destruct E as [_ E].
    discriminate E. }
  reflexivity.
Qed.

(** ** What a step leaves of its own guard *)

Lemma commit_unchanged_deps r w : deps r = deps (current w) -> commit r w = w.
Proof.
  intros H. apply commit_same. apply bool_decide_eq_false_2.
  intros Hne. apply Hne, H.
Qed.

Lemma appended_nonempty {A : Type} (l : list A) (x : A) : l ++ [x] <> [].
Proof. intros E. apply app_eq_nil in E. destruct E as [_ E]. discriminate E. Qed.

Lemma mapped_nonempty {A B : Type} (f : A -> B) (l : list A) :
  l <> [] -> map f l <> [].
Proof. destruct l; [contradiction|]. intros _. discriminate. Qed.

(** C6, as the code has it.  When [runWorkflow] has run a step to its end,
    the guard of that step no longer holds, with one exception: a synthesis
    that resolves with the empty text leaves the guard of step 2 true.  And
    the effect is only re-run when one of its five dependencies changes:
    with the dependencies as they were at the last render, a commit appends
    no audit entry, changes no status and starts no step. *)
Theorem own_guard_after_pass (w w' : World) (outcomes : list Outcome)
    (k : StepId)
    (Hk : eligible (current w) = Some k)
    (Hpass : evaluationPass clock getPatientData outcomes w = Some w') :
  (guardOf k (current w') = true
   <-> k = Synthesize /\ outcomes = [ Resolved EmptyString ])
  /\ (forall r, deps r = deps (current w') -> commit r w' = w').
Proof.
  split; [|intros r; apply commit_unchanged_deps].
  unfold eligible in Hk. unfold evaluationPass, runWorkflow in Hpass.
  destruct (startRetrievePre (current w)) eqn:H1.
  { injection Hk as <-.
    destruct outcomes as [|[| |] [|[| |] [|o os]]]; simpl in Hpass;
      try discriminate Hpass;
      try (destruct (getPatientData _); simpl in Hpass; discriminate Hpass).
    split; [|intros [E _]; discriminate E].
    intros Hg. exfalso.
    assert (Hne : auditLog (current w') <> []).
    { destruct (getPatientData _); simpl in Hpass; injection Hpass as <-;
        simpl; repeat apply mapped_nonempty; apply appended_nonempty. }
    simpl in Hg. rewrite (startRetrievePre_nonempty _ Hne) in Hg.
    discriminate Hg. }
  destruct (synthesizePre (current w)) eqn:H2.
  { injection Hk as <-.
    unfold synthesizePre in H2.
    apply andb_prop in H2. destruct H2 as [H2 Hnotes].
    apply andb_prop in H2. destruct H2 as [Hrun Hpresent].
    destruct (patientData (current w)) as [patient|] eqn:Hp;
      [|discriminate Hpresent].
    destruct outcomes as [|[|notes|message] [|o os]]; simpl in Hpass;
      try discriminate Hpass.
    - simpl in Hpass. injection Hpass as <-. simpl. unfold synthesizePre.
      simpl. rewrite Hrun, Hp. simpl.
      destruct notes; simpl; split.
      + intros _. split; reflexivity.
      + intros _. reflexivity.
      + intros E. discriminate E.
      + intros [_ E]. discriminate E.
    - simpl in Hpass. injection Hpass as <-. simpl. unfold synthesizePre.
      simpl. split; [intros E; discriminate E|intros [_ E]; discriminate E]. }
  destruct (draftPre (current w)) eqn:H3.
  { injection Hk as <-.
    destruct outcomes as [|[|draft|message] [|o os]];
      try (destruct (bool_decide (status (current w) = editing));
           simpl in Hpass; discriminate Hpass).
    - split; [|intros [E _]; discriminate E].
      destruct (bool_decide (status (current w) = editing));
        simpl in Hpass; injection Hpass as <-; simpl; unfold draftPre; simpl;
        intros E; discriminate E.
    - split; [|intros [E _]; discriminate E].
      destruct (bool_decide (status (current w) = editing));
        simpl in Hpass; injection Hpass as <-; simpl; unfold draftPre; simpl;
        intros E; discriminate E. }
  destruct (finalizePre (current w)) eqn:H4; [|discriminate Hk].
  injection Hk as <-.
  destruct outcomes as [|[| |] [|o os]]; simpl in Hpass;
    try discriminate Hpass.
  injection Hpass as <-. simpl. unfold finalizePre. simpl.
  split; [intros E; discriminate E|intros [E _]; discriminate E].
Qed.

(** ** Entries in progress *)

Lemma inProgressCount_cons e l :
  inProgressCount (e :: l)
  = (if decide (entryStatus e = in_progress) then 1 else 0) + inProgressCount l.
Proof.
  unfold inProgressCount. rewrite filter_cons.
  destruct (decide (entryStatus e = in_progress)); reflexivity.
Qed.

Lemma inProgressCount_app l l' :
  inProgressCount (l ++ l') = inProgressCount l + inProgressCount l'.
Proof. unfold inProgressCount. rewrite filter_app, length_app. reflexivity. Qed.

Lemma inProgressCount_added l stepName details' st ts :
  st <> in_progress ->
  inProgressCount
    (l ++ [ {| step := stepName; entryStatus := st; details := details';
               timestamp := ts |} ])
  = inProgressCount l.
Proof.
  intros H. rewrite inProgressCount_app, inProgressCount_cons.
  cbn [entryStatus].
  destruct (decide (st = in_progress)); [contradiction|].
  change (inProgressCount []) with 0. lia.
Qed.

(** An update to a status other than in_progress never adds one. *)
Lemma inProgressCount_revised stepName st d l :
  st <> in_progress ->
  inProgressCount (map (reviseEntry stepName st d) l) <= inProgressCount l.
Proof.
  intros Hst. induction l as [|e l IH]; cbn [map]; [reflexivity|].
  rewrite !inProgressCount_cons.
  destruct (decide (step e = stepName)) as [Heq|Hne].
  - rewrite (reviseEntry_match _ _ _ _ Heq). cbn [entryStatus].
    destruct (decide (st = in_progress)); [contradiction|].
    destruct (decide (entryStatus e = in_progress)); lia.
  - rewrite (reviseEntry_other _ _ _ _ Hne).
    destruct (decide (entryStatus e = in_progress)); lia.
Qed.

(** The step in flight is the last entry and the only one in progress:
    marking it leaves none. *)
Lemma inProgressCount_step_done stepName st d l e :
  st <> in_progress -> inProgressCount l = 0 -> step e = stepName ->
  inProgressCount (map (reviseEntry stepName st d) (l ++ [e])) = 0.
Proof.
  intros Hst Hl He. rewrite map_app, inProgressCount_app.
  pose proof (inProgressCount_revised stepName st d l Hst) as Hle.
  cbn [map]. rewrite inProgressCount_cons.
  rewrite (reviseEntry_match _ _ _ _ He). cbn [entryStatus].
  destruct (decide (st = in_progress)); [contradiction|].
  change (inProgressCount []) with 0. lia.
Qed.

Lemma dispatch_settle_idle i o s n :
  dispatch (Settle i o) {| current := s; suspended := []; clockReads := n |}
  = None.
Proof. reflexivity. Qed.

Lemma dispatch_settle_beyond i o s t n :
  dispatch (Settle (S i) o)
    {| current := s; suspended := [t]; clockReads := n |}
  = None.
Proof. reflexivity. Qed.

Lemma dispatch_settle_refused o s t rest n :
  resume t o = None ->
  dispatch (Settle 0 o) {| current := s; suspended := t :: rest; clockReads := n |}
  = None.
Proof. intros H. simpl. rewrite H. reflexivity. Qed.

Lemma Phase_bound w :
  Phase w ->
  inProgressCount (auditLog (current w)) <= (if awaitingLookup w then 2 else 1).
Proof.
  intros [s n Hs Hq|s st n e Hs _ _ _ _ Hl _|s st data n e1 e2 Hs _ _ _ _ Hl _ _
         |s p n l e _ _ _ _ _ Hl Hq _|s a b c n l e _ _ _ _ Hl Hq _
         |s n _ _ _ _ Hq|s n l e _ Hl Hq _|s n _ _ Hq];
    cbn [current awaitingLookup suspended]; try rewrite Hl;
    try rewrite inProgressCount_app; try rewrite !inProgressCount_cons;
    change (inProgressCount []) with 0;
    repeat match goal with
           | |- context [decide ?P] => destruct (decide P)
           end;
    lia.
Qed.

(** ** The shapes are kept along a run without edit requests *)

Ltac settle_in H :=
  erewrite dispatch_settle_head in H by reflexivity;
  unfold applyUpdates in H;
  cbn [spawn fold_left applyUpdate current suspended clockReads app] in H.

Ltac refused_in H :=
  first
    [ rewrite dispatch_settle_idle in H
    | rewrite dispatch_settle_beyond in H
    | rewrite dispatch_settle_refused in H by reflexivity ];
  discriminate H.

Lemma Phase_idle_step s n e w' :
  status s = idle -> inProgressCount (auditLog s) = 0 ->
  permitted {| current := s; suspended := []; clockReads := n |} e ->
  dispatch e {| current := s; suspended := []; clockReads := n |} = Some w' ->
  Phase w'.
Proof.
  intros Hs Hq Hperm Hd.
  destruct e as [id| | | |t|i o]; cbn [permitted current] in Hperm;
    try contradiction; try congruence; [|refused_in Hd].
  cbn [dispatch current] in Hd. unfold handleGenerate in Hd.
  destruct (truthyId (patientId s)) eqn:Hid; cbn [negb] in Hd.
  - destruct (patientId s) as [pid|] eqn:Hp; [|discriminate Hid].
    simpl in Hid.
    erewrite commit_run in Hd; cycle 1.
    { apply depsChanged_status. rewrite Hs. simpl. discriminate. }
    { simpl. discriminate. }
    { apply runWorkflow_start with (pid := pid);
        [reflexivity|reflexivity|simpl; exact Hp|exact Hid]. }
    injection Hd as <-.
    eapply phase_starting; reflexivity.
  - rewrite commit_same in Hd by apply depsChanged_same.
    injection Hd as <-. apply phase_idle; assumption.
Qed.

Lemma Phase_starting_step s st n e0 e w' :
  status s = running -> patientData s = None ->
  synthesizedNotes s = EmptyString -> draftSummary s = EmptyString ->
  finalSummary s = EmptyString ->
  auditLog s = [e0] -> step e0 = "Start Workflow" ->
  permitted {| current := s; suspended := [AwaitStartDelay st]; clockReads := n |} e ->
  dispatch e {| current := s; suspended := [AwaitStartDelay st]; clockReads := n |}
  = Some w' ->
  Phase w'.
Proof.
  intros Hs Hp Hn Hdr Hf Hl He0 Hperm Hd.
  destruct e as [id| | | |t|i o]; cbn [permitted current] in Hperm;
    try contradiction; try congruence.
  destruct i as [|i]; [|refused_in Hd].
  destruct o; [|refused_in Hd|refused_in Hd].
  settle_in Hd.
  rewrite commit_unchanged_deps in Hd by reflexivity.
  injection Hd as <-.
  eapply phase_lookup; try eassumption.
  - simpl. rewrite Hl. reflexivity.
  - reflexivity.
Qed.

Lemma Phase_lookup_step s st data n e1 e2 e w' :
  status s = running -> patientData s = None ->
  synthesizedNotes s = EmptyString -> draftSummary s = EmptyString ->
  finalSummary s = EmptyString ->
  auditLog s = [e1; e2] ->
  step e1 = "Start Workflow" -> step e2 = "Retrieve Patient Data" ->
  permitted {| current := s; suspended := [AwaitLookupDelay st data];
               clockReads := n |} e ->
  dispatch e {| current := s; suspended := [AwaitLookupDelay st data];
                clockReads := n |} = Some w' ->
  Phase w'.
Proof.
  intros Hs Hp Hn Hdr Hf Hl He1 He2 Hperm Hd.
  destruct e as [id| | | |t|i o]; cbn [permitted current] in Hperm;
    try contradiction; try congruence.
  destruct i as [|i]; [|refused_in Hd].
  destruct o; [|destruct data; refused_in Hd|destruct data; refused_in Hd].
  destruct e1 as [s1 es1 d1 t1], e2 as [s2 es2 d2 t2].
  simpl in He1, He2. subst s1 s2.
  destruct data as [d|].
  - settle_in Hd.
    erewrite commit_run in Hd; cycle 1.
    { apply depsChanged_patientData. rewrite Hp. simpl. discriminate. }
    { simpl. rewrite Hs. discriminate. }
    { apply runWorkflow_synthesize with (patient := d);
        [simpl; exact Hs| |reflexivity|simpl; exact Hn].
      simpl. rewrite Hl. discriminate. }
    injection Hd as <-.
    eapply phase_synthesis; try reflexivity; simpl; try assumption.
    rewrite Hl. reflexivity.
  - settle_in Hd.
    rewrite commit_quiet in Hd
      by (apply runWorkflow_not_active; simpl; discriminate).
    injection Hd as <-.
    apply phase_stopped; simpl; try discriminate.
    rewrite Hl. destruct es1; vm_compute; lia.
Qed.

Lemma Phase_synthesis_step s patient n l e0 e w' :
  status s = running -> present (patientData s) = true ->
  synthesizedNotes s = EmptyString -> draftSummary s = EmptyString ->
  finalSummary s = EmptyString ->
  auditLog s = l ++ [e0] -> inProgressCount l = 0 ->
  step e0 = "Synthesize Clinical Notes" ->
  permitted {| current := s; suspended := [AwaitSynthesis patient];
               clockReads := n |} e ->
  dispatch e {| current := s; suspended := [AwaitSynthesis patient];
                clockReads := n |} = Some w' ->
  Phase w'.
Proof.
  intros Hs Hp Hn Hdr Hf Hl Hq He0 Hperm Hd.
  destruct e as [id| | | |t|i o]; cbn [permitted current] in Hperm;
    try contradiction; try congruence.
  destruct i as [|i]; [|refused_in Hd].
  destruct o as [|notes|message]; [refused_in Hd| |].
  - settle_in Hd. destruct notes as [|a notes].
    + rewrite commit_unchanged_deps in Hd.
      2:{ unfold deps. simpl. rewrite Hn. reflexivity. }
      injection Hd as <-.
      apply phase_stopped; simpl; rewrite ?Hs; try discriminate.
      rewrite Hl, inProgressCount_step_done by (assumption || discriminate).
      lia.
    + erewrite commit_run in Hd; cycle 1.
      { apply depsChanged_synthesizedNotes. rewrite Hn. simpl. discriminate. }
      { simpl. rewrite Hs. discriminate. }
      { apply runWorkflow_draft;
          [simpl; exact Hs| |reflexivity|simpl; exact Hdr].
        simpl. rewrite Hl. apply mapped_nonempty, appended_nonempty. }
      injection Hd as <-.
      eapply phase_drafting; try reflexivity; simpl; try assumption.
      rewrite Hl. apply inProgressCount_step_done;
        (assumption || discriminate).
  - settle_in Hd.
    rewrite commit_quiet in Hd
      by (apply runWorkflow_not_active; simpl; discriminate).
    injection Hd as <-.
    apply phase_stopped; simpl; try discriminate.
    rewrite Hl, inProgressCount_step_done by (assumption || discriminate).
    lia.
Qed.

Lemma Phase_drafting_step s notes patient request n l e0 e w' :
  status s = running -> truthy (synthesizedNotes s) = true ->
  draftSummary s = EmptyString -> finalSummary s = EmptyString ->
  auditLog s = l ++ [e0] -> inProgressCount l = 0 ->
  step e0 = "Generate Draft Summary" ->
  permitted {| current := s;
               suspended := [AwaitDraft "Generate Draft Summary" notes patient
                               request];
               clockReads := n |} e ->
  dispatch e {| current := s;
                suspended := [AwaitDraft "Generate Draft Summary" notes patient
                                request];
                clockReads := n |} = Some w' ->
  Phase w'.
Proof.
  intros Hs Hn Hdr Hf Hl Hq He0 Hperm Hd.
  destruct e as [id| | | |t|i o]; cbn [permitted current] in Hperm;
    try contradiction; try congruence.
  destruct i as [|i]; [|refused_in Hd].
  destruct o as [|draft|message]; [refused_in Hd| |].
  - settle_in Hd.
    rewrite commit_quiet in Hd
      by (apply runWorkflow_not_active; simpl; discriminate).
    injection Hd as <-.
    apply phase_review; simpl; try assumption; try reflexivity.
    + apply appended_nonempty.
    + rewrite inProgressCount_added by discriminate.
      rewrite Hl. apply inProgressCount_step_done;
        (assumption || discriminate).
  - settle_in Hd.
    rewrite commit_quiet in Hd
      by (apply runWorkflow_not_active; simpl; discriminate).
    injection Hd as <-.
    apply phase_stopped; simpl; try discriminate.
    rewrite Hl, inProgressCount_step_done by (assumption || discriminate).
    lia.
Qed.

Lemma Phase_review_step s n e w' :
  status s = awaiting_approval -> truthy (synthesizedNotes s) = true ->
  finalSummary s = EmptyString ->
  auditLog s <> [] -> inProgressCount (auditLog s) = 0 ->
  permitted {| current := s; suspended := []; clockReads := n |} e ->
  dispatch e {| current := s; suspended := []; clockReads := n |} = Some w' ->
  Phase w'.
Proof.
  intros Hs Hn Hf Hne Hq Hperm Hd.
  destruct e as [id| | | |t|i o]; cbn [permitted current] in Hperm;
    try contradiction; try congruence; [|refused_in Hd].
  cbn [dispatch current] in Hd.
  assert (Hq' : inProgressCount (auditLog (handleApprove s)) = 0).
  { simpl. pose proof (inProgressCount_revised "Human Review" completed
      (Some "Clinician approved the draft summary.") (auditLog s)) as Hle.
    specialize (Hle ltac:(discriminate)). lia. }
  assert (Hne' : auditLog (handleApprove s) <> []).
  { simpl. apply mapped_nonempty, Hne. }
  destruct (draftSummary s) as [|a draft] eqn:Hdr.
  - erewrite commit_run in Hd; cycle 1.
    { apply depsChanged_status. rewrite Hs. simpl. discriminate. }
    { simpl. discriminate. }
    { apply runWorkflow_draft;
        [reflexivity|exact Hne'|simpl; exact Hn|simpl; exact Hdr]. }
    injection Hd as <-.
    eapply phase_drafting; try reflexivity; simpl; try assumption.
  - erewrite commit_run in Hd; cycle 1.
    { apply depsChanged_status. rewrite Hs. simpl. discriminate. }
    { simpl. discriminate. }
    { apply runWorkflow_finalize;
        [reflexivity|exact Hne'|simpl; exact Hn|simpl; rewrite Hdr; reflexivity
        |simpl; exact Hf]. }
    injection Hd as <-.
    eapply phase_finalizing; try reflexivity; simpl; try assumption.
Qed.

Lemma Phase_finalizing_step s n l e0 e w' :
  status s = running ->
  auditLog s = l ++ [e0] -> inProgressCount l = 0 ->
  step e0 = "Finalize Summary" ->
  permitted {| current := s; suspended := [AwaitFinalizeDelay]; clockReads := n |} e ->
  dispatch e {| current := s; suspended := [AwaitFinalizeDelay]; clockReads := n |}
  = Some w' ->
  Phase w'.
Proof.
  intros Hs Hl Hq He0 Hperm Hd.
  destruct e as [id| | | |t|i o]; cbn [permitted current] in Hperm;
    try contradiction; try congruence.
  destruct i as [|i]; [|refused_in Hd].
  destruct o; [|refused_in Hd|refused_in Hd].
  settle_in Hd.
  rewrite commit_quiet in Hd
    by (apply runWorkflow_not_active; simpl; discriminate).
  injection Hd as <-.
  apply phase_stopped; simpl; try discriminate.
  rewrite inProgressCount_added by discriminate.
  rewrite Hl, inProgressCount_step_done by (assumption || discriminate).
  lia.
Qed.

Lemma Phase_step w e w' :
  Phase w -> permitted w e -> dispatch e w = Some w' -> Phase w'.
Proof.
  intros HP. destruct HP.
  - eapply Phase_idle_step; eassumption.
  - eapply Phase_starting_step; eassumption.
  - eapply Phase_lookup_step; eassumption.
  - eapply Phase_synthesis_step; eassumption.
  - eapply Phase_drafting_step; eassumption.
  - eapply Phase_review_step; eassumption.
  - eapply Phase_finalizing_step; eassumption.
  - intros Hperm Hd.
    destruct e as [id| | | |t|i o]; cbn [permitted current] in Hperm;
      try contradiction; refused_in Hd.
Qed.

Lemma reachableWithoutEdits_Phase w :
  reachableWithoutEdits clock getPatientData w -> Phase w.
Proof.
  induction 1 as [w id Hs|w e w' _ IH Hperm Hd].
  - destruct w as [s ss n]. simpl in Hs. subst ss.
    apply phase_idle; reflexivity.
  - eapply Phase_step; eassumption.
Qed.

(** C2, without edit requests.  Along a run of one patient in which the
    reviewer only approves (generate on the idle state, suspended steps
    settling with any outcome, approve while the machine waits for it), at
    most two audit entries are in_progress in every snapshot, and two only
    while step 1 waits on the patient lookup, when "Start Workflow" and
    "Retrieve Patient Data" are both in_progress; everywhere else, terminal
    error states included, at most one is. *)
Theorem in_progress_bound (w : World)
    (Hreach : reachableWithoutEdits clock getPatientData w) :
  inProgressCount (auditLog (current w)) <= 2
  /\ (awaitingLookup w = false ->
      inProgressCount (auditLog (current w)) <= 1).
Proof.
  pose proof (Phase_bound w (reachableWithoutEdits_Phase w Hreach)) as H.
  destruct (awaitingLookup w); split; try lia; intros E; try lia; discriminate.
Qed.

(** ** More on the audit log updaters *)

(** X1: [updateAuditLogStatus] for a step name that no entry carries is a
    no-op: the state is returned as it was, and nothing is raised. *)
Theorem updateAuditLogStatus_missing_step
    (stepName : string) (status : AuditLogStatus) (details' : option string)
    (s : AgentState)
    (Hmissing : Forall (fun e => step e <> stepName) (auditLog s)) :
  updateAuditLogStatus stepName status details' s = s.
Proof.
  destruct s as [pid pd notes draft final log st err req].
  simpl in Hmissing. unfold updateAuditLogStatus, withAuditLog. simpl.
  f_equal.
  induction Hmissing as [|e l He _ IH]; simpl; [reflexivity|].
  rewrite (reviseEntry_other _ _ _ _ He), IH. reflexivity.
Qed.

Lemma orElse_twice d prior : orElse d (orElse d prior) = orElse d prior.
Proof. destruct d as [d|]; simpl; [destruct (truthy d)|]; reflexivity. Qed.

Lemma reviseEntry_twice stepName status details' e :
  reviseEntry stepName status details'
    (reviseEntry stepName status details' e)
  = reviseEntry stepName status details' e.
Proof.
  destruct (decide (step e = stepName)) as [Heq|Hne].
  - rewrite (reviseEntry_match _ _ _ e Heq).
    rewrite reviseEntry_match by exact Heq. simpl.
    rewrite orElse_twice. reflexivity.
  - rewrite (reviseEntry_other _ _ _ e Hne).
    apply reviseEntry_other, Hne.
Qed.

(** X2: the log update is idempotent, and so is [approve()]: a second
    identical update, or a second click on approve, changes nothing more. *)
Theorem updateAuditLogStatus_idempotent
    (stepName : string) (status : AuditLogStatus) (details' : option string)
    (s : AgentState) :
  updateAuditLogStatus stepName status details'
    (updateAuditLogStatus stepName status details' s)
  = updateAuditLogStatus stepName status details' s
  /\ handleApprove (handleApprove s) = handleApprove s.
Proof.
  assert (H : forall n st d s0,
    updateAuditLogStatus n st d (updateAuditLogStatus n st d s0)
    = updateAuditLogStatus n st d s0).
  { intros n st d s0. unfold updateAuditLogStatus, withAuditLog. simpl.
    f_equal. rewrite map_map. apply map_ext. intros e.
    apply reviseEntry_twice. }
  split; [apply H|].
  unfold handleApprove.
  change (updateAuditLogStatus ?n ?st ?d (withStatus running ?x))
    with (withStatus running (updateAuditLogStatus n st d x)).
  rewrite H. reflexivity.
Qed.

(** X3: an update and an append for different step names commute; this is
    why a step may mark its own entry done before or after the next entry
    is appended. *)
Theorem update_commutes_with_append
    (stepName : string) (status : AuditLogStatus) (details' : option string)
    (step' details'' : string) (status' : AuditLogStatus) (ts : string)
    (s : AgentState)
    (Hother : step' <> stepName) :
  updateAuditLogStatus stepName status details'
    (addAuditLog step' details'' status' ts s)
  = addAuditLog step' details'' status' ts
      (updateAuditLogStatus stepName status details' s).
Proof.
  unfold updateAuditLogStatus, addAuditLog, withAuditLog. simpl. f_equal.
  rewrite map_app. simpl. rewrite reviseEntry_other by exact Hother.
  reflexivity.
Qed.

(** X11: [approve()] and [requestEdits(t)] rewrite the details of every
    "Human Review" entry of the log: after an approval, the entries of
    earlier edit cycles no longer hold the edits that were asked for, and
    after a second edit request the first request is no longer on record. *)
Theorem review_notes_overwritten (s : AgentState) (t : string) :
  Forall (fun e => step e = "Human Review" ->
                   details e = "Clinician approved the draft summary.")
    (auditLog (handleApprove s))
  /\ Forall (fun e => step e = "Human Review" ->
                      details e = editLogDetails t)
       (auditLog (handleRequestEdits t s)).
Proof.
  assert (Hrev : forall d l, truthy d = true ->
    Forall (fun e => step e = "Human Review" -> details e = d)
      (map (reviseEntry "Human Review" completed (Some d)) l)).
  { intros d l Hd. induction l as [|e l IH]; simpl; constructor; [|exact IH].
    destruct (decide (step e = "Human Review")) as [Heq|Hne].
    - rewrite (reviseEntry_match _ _ _ e Heq). simpl. rewrite Hd. reflexivity.
    - rewrite (reviseEntry_other _ _ _ e Hne). intros Hs. contradiction. }
  split.
  - apply (Hrev "Clinician approved the draft summary."). reflexivity.
  - exact (Hrev (editLogDetails t) (auditLog s) eq_refl).
Qed.

(** ** What a run leaves alone *)

Lemma applyUpdates_keeps (P : AgentState -> Prop) us w :
  logBlind P -> Forall (keeps P) us ->
  P (current w) -> P (current (applyUpdates us w)).
Proof.
  intros Hblind H. revert w.
  induction H as [|u us Hu _ IH]; intros w Hw; simpl; [exact Hw|].
  apply IH. destruct u; simpl.
  - apply (Hblind _ _ Hw).
  - apply (Hblind _ _ Hw).
  - apply Hu, Hw.
Qed.

Lemma flushEffects_keeps (P : AgentState -> Prop) fuel r w :
  logBlind P ->
  (forall s, Forall (keeps P) (fst (runWorkflow s))) ->
  P (current w) -> P (current (flushEffects fuel r w)).
Proof.
  intros Hblind Hrw. revert r w.
  induction fuel as [|fuel IH]; intros r w Hw; simpl; [exact Hw|].
  destruct (depsChanged r (current w)); [|exact Hw].
  pose proof (Hrw (current w)) as Hs.
  destruct (runWorkflow (current w)) as [us t]. simpl in Hs.
  apply IH. rewrite spawn_current.
  apply applyUpdates_keeps; assumption.
Qed.

Lemma commit_keeps (P : AgentState -> Prop) r w :
  logBlind P ->
  (forall s, Forall (keeps P) (fst (runWorkflow s))) ->
  P (current w) -> P (current (commit r w)).
Proof. apply flushEffects_keeps. Qed.

(** The prefix of [runWorkflow] only appends to the log and, in the editing
    branch, sets the status. *)
Lemma runWorkflow_keeps (P : AgentState -> Prop) s :
  (forall s0, P s0 -> P (withStatus running s0)) ->
  Forall (keeps P) (fst (runWorkflow s)).
Proof.
  intros Hst. unfold runWorkflow.
  destruct (startRetrievePre s); [repeat constructor|].
  destruct (synthesizePre s); [destruct (patientData s); repeat constructor|].
  destruct (draftPre s).
  { destruct (bool_decide (status s = editing)); repeat constructor.
    exact Hst. }
  destruct (finalizePre s); repeat constructor.
Qed.

(** X13: no operation of a run touches [patientId]: step continuations,
    the steps the effect starts, [approve()] and [requestEdits(text)] all
    leave it as it is. *)
Theorem patientId_fixed_within_run (e : Event) (w w' : World)
    (Hop : withinRun e) (Hstep : dispatch e w = Some w') :
  patientId (current w') = patientId (current w).
Proof.
  set (P := fun s => patientId s = patientId (current w)).
  assert (Hblind : logBlind P) by (intros l s H; exact H).
  assert (Hrw : forall s, Forall (keeps P) (fst (runWorkflow s))).
  { intros s. apply runWorkflow_keeps. intros s0 H. exact H. }
  change (P (current w')).
  destruct e as [| | | |t|i o]; try contradiction; cbn [dispatch] in Hstep.
  - injection Hstep as <-. apply (commit_keeps P); try assumption.
    reflexivity.
  - injection Hstep as <-. apply (commit_keeps P); try assumption.
    reflexivity.
  - destruct (suspended w !! i) as [task|]; [|discriminate].
    destruct (resume task o) as [[us next]|] eqn:Hr; [|discriminate].
    injection Hstep as <-. apply (commit_keeps P); try assumption.
    rewrite spawn_current. apply (applyUpdates_keeps P); try assumption.
    + destruct task as [st|st [d|]| | |], o; simpl in Hr; inversion Hr;
        subst; repeat constructor; intros s H; exact H.
    + reflexivity.
Qed.


(** X16: [finalSummary] is written by the finalize step alone.  Any other
    operation of a run leaves it as it is, and when the timer of a
    suspended finalize step fires it becomes the draft that is current at
    that moment. *)
Theorem finalSummary_written_by_finalize (e : Event) (w w' : World)
    (Hop : withinRun e) (Hstep : dispatch e w = Some w') :
  finalSummary (current w') = finalSummary (current w)
  \/ (exists i, e = Settle i TimerFired
                /\ suspended w !! i = Some AwaitFinalizeDelay
                /\ finalSummary (current w') = draftSummary (current w)
                /\ status (current w') = finished).
Proof.
  assert (Hgen : forall f : string,
    let P := fun s => finalSummary s = f in
    logBlind P /\ forall s, Forall (keeps P) (fst (runWorkflow s))).
  { intros f P. split; [intros l s H; exact H|].
    intros s. apply runWorkflow_keeps. intros s0 H. exact H. }
  destruct e as [| | | |t|i o]; try contradiction; cbn [dispatch] in Hstep.
  - left. injection Hstep as <-.
    destruct (Hgen (finalSummary (current w))) as [Hb Hrw].
    apply (commit_keeps _ _ _ Hb Hrw). reflexivity.
  - left. injection Hstep as <-.
    destruct (Hgen (finalSummary (current w))) as [Hb Hrw].
    apply (commit_keeps _ _ _ Hb Hrw). reflexivity.
  - destruct (suspended w !! i) as [task|] eqn:Hi; [|discriminate].
    destruct (resume task o) as [[us next]|] eqn:Hr; [|discriminate].
    injection Hstep as <-.
    destruct task as [st|st data| | |].
    5:{ right. exists i. destruct o; try discriminate Hr.
        simpl in Hr. injection Hr as <- <-.
        split; [reflexivity|]. split; [exact Hi|].
        rewrite commit_quiet.
        - simpl. split; reflexivity.
        - apply runWorkflow_not_active; simpl; discriminate. }
    all: left; destruct (Hgen (finalSummary (current w))) as [Hb Hrw];
      apply (commit_keeps _ _ _ Hb Hrw);
      rewrite spawn_current; apply applyUpdates_keeps;
      [exact Hb| |reflexivity];
      try destruct data; destruct o; simpl in Hr; inversion Hr; subst;
      repeat constructor; intros s H; exact H.
Qed.

(** ** Selecting a patient and starting a run *)

(** X4: selecting a patient replaces the state by the initial state with
    that patient id, whatever the previous run left behind, and starts
    nothing: status stays idle, the audit log is empty, no step is added to
    the suspended ones and the clock is not read. *)
Theorem select_patient_does_not_start (id : string) (w : World) :
  exists w',
    dispatch (PatientSelect id) w = Some w'
    /\ current w' = withPatientId (Some id) INITIAL_STATE
    /\ status (current w') = idle
    /\ auditLog (current w') = []
    /\ suspended w' = suspended w
    /\ clockReads w' = clockReads w.
Proof.
  eexists. split; [apply dispatch_select|]. repeat split.
Qed.

(** X5: what [generate()] does with a non-empty patient id.  Every field
    of the previous run is cleared and status is set to running.  When that
    changes a dependency of the effect, step 1 starts: "Start Workflow" is
    logged in_progress and its 500 ms wait is suspended.  When it changes
    none (the state is already a running one without record, notes or
    draft, as while step 1 is waiting), the audit log is wiped and no step
    is started. *)
Theorem generate_clears_and_starts (pid : string) (w : World)
    (Hid : patientId (current w) = Some pid)
    (Htruthy : truthy pid = true) :
  let fresh := withStatus running (withPatientId (Some pid) INITIAL_STATE) in
  (deps (current w) <> deps fresh ->
   dispatch Generate w
   = Some {| current :=
               addAuditLog "Start Workflow"
                 ("Initiating summary generation for patient: " +:+ pid)
                 in_progress (clock (clockReads w)) fresh;
             suspended := suspended w ++ [ AwaitStartDelay fresh ];
             clockReads := S (clockReads w) |})
  /\ (deps (current w) = deps fresh ->
      dispatch Generate w
      = Some {| current := fresh; suspended := suspended w;
                clockReads := clockReads w |}).
Proof.
  intros fresh.
  assert (Hg : handleGenerate (current w) = fresh).
  { unfold handleGenerate, generateUpdater. rewrite Hid. simpl.
    rewrite Htruthy. reflexivity. }
  cbn [dispatch]. rewrite Hg. split; intros Hdeps.
  - erewrite commit_run; cycle 1.
    { apply bool_decide_eq_true_2. exact Hdeps. }
    { simpl. discriminate. }
    { apply runWorkflow_start with (pid := pid);
        [reflexivity|reflexivity|reflexivity|exact Htruthy]. }
    reflexivity.
  - rewrite commit_unchanged_deps by exact Hdeps. reflexivity.
Qed.

(** ** The first two steps, and how they fail *)

Lemma run_app es es' w :
  run (es ++ es') w
  = match run es w with
    | Some w' => run es' w'
    | None => None
    end.
Proof.
  revert w. induction es as [|e es IH]; intros w; cbn [app run]; [reflexivity|].
  destruct (dispatch e w); [apply IH|reflexivity].
Qed.

(** Steps 1 runs to its end and step 2 is started. *)
Lemma run_to_synthesis X patient w :
  truthy X = true -> getPatientData X = Some patient -> suspended w = [] ->
  run [ PatientSelect X; Generate; Settle 0 TimerFired; Settle 0 TimerFired ] w
  = Some {| current := synthesizing clock X patient (clockReads w);
            suspended := [ AwaitSynthesis patient ];
            clockReads := S (S (S (clockReads w))) |}.
Proof.
  intros Hstarted Hfound Hnone.
  destruct w as [s0 ss n]. simpl in Hnone. subst ss.
  cbn [run]. rewrite dispatch_select. unfold setCurrent.
  cbn [suspended clockReads].
  rewrite (dispatch_generate_selected X [] n Hstarted). cbn [app].
  settle_head. rewrite commit_same by deps_same.
  rewrite (Hfound : getPatientData
             (idText (patientId
                (withStatus running (withPatientId (Some X) INITIAL_STATE))))
           = Some patient).
  settle_head.
  erewrite commit_run; cycle 1.
  { apply depsChanged_patientData. simpl. discriminate. }
  { simpl. discriminate. }
  { apply runWorkflow_synthesize with (patient := patient);
      [reflexivity|simpl; discriminate|reflexivity|reflexivity]. }
  reflexivity.
Qed.

(** Step 2 succeeds with non-empty notes and step 3 is started. *)
Lemma synthesis_to_drafting X patient notes n :
  truthy notes = true ->
  dispatch (Settle 0 (Resolved notes))
    {| current := synthesizing clock X patient n;
       suspended := [ AwaitSynthesis patient ];
       clockReads := S (S (S n)) |}
  = Some {| current := drafting clock X patient notes n;
            suspended := [ AwaitDraft "Generate Draft Summary" notes
                             (Some patient) EmptyString ];
            clockReads := S (S (S (S n))) |}.
Proof.
  intros Hnotes. settle_head.
  erewrite commit_run; cycle 1.
  { apply depsChanged_synthesizedNotes. simpl.
    intros E. symmetry in E. revert E. apply truthy_nonempty, Hnotes. }
  { simpl. discriminate. }
  { apply runWorkflow_draft;
      [reflexivity|simpl; discriminate|exact Hnotes|reflexivity]. }
  reflexivity.
Qed.

(** X6: when the synthesis collaborator rejects with [message], the run
    ends with status error and [error] set to the message, the "Synthesize
    Clinical Notes" entry is marked error, and nothing is left suspended.
    With an empty message the entry keeps the details it had and the page
    shows no error banner, although the status is error. *)
Theorem synthesis_failure (X : string) (patient : Patient) (message : string)
    (w : World)
    (Hstarted : truthy X = true)
    (Hfound : getPatientData X = Some patient)
    (Hnone : suspended w = []) :
  exists w',
    run [ PatientSelect X; Generate; Settle 0 TimerFired; Settle 0 TimerFired;
          Settle 0 (Rejected message) ] w = Some w'
    /\ status (current w') = status_error
    /\ error (current w') = Some message
    /\ outline (auditLog (current w'))
       = [ ("Start Workflow", completed); ("Retrieve Patient Data", completed);
           ("Synthesize Clinical Notes", entry_error) ]
    /\ details <$> last (auditLog (current w'))
       = Some (if truthy message then message
               else "Using Gemini to synthesize patient data.")
    /\ errorBannerShown (current w') = truthy message
    /\ synthesizedNotes (current w') = EmptyString
    /\ suspended w' = [].
Proof.
  change [ PatientSelect X; Generate; Settle 0 TimerFired; Settle 0 TimerFired;
           Settle 0 (Rejected message) ]
    with ([ PatientSelect X; Generate; Settle 0 TimerFired;
            Settle 0 TimerFired ] ++ [ Settle 0 (Rejected message) ]).
  rewrite run_app, (run_to_synthesis X patient w Hstarted Hfound Hnone).
  cbn [run]. settle_head.
  rewrite commit_quiet by (apply runWorkflow_not_active; simpl; discriminate).
  eexists. split; [reflexivity|].
  repeat split.
Qed.

(** X7: when the draft collaborator rejects with [message], the run ends
    with status error and [error] set to the message, the "Generate Draft
    Summary" entry is marked error, no "Human Review" entry is appended, no
    draft is stored and nothing is left suspended. *)
Theorem draft_failure (X : string) (patient : Patient)
    (notes message : string) (w : World)
    (Hstarted : truthy X = true)
    (Hfound : getPatientData X = Some patient)
    (Hnotes : truthy notes = true)
    (Hnone : suspended w = []) :
  exists w',
    run [ PatientSelect X; Generate; Settle 0 TimerFired; Settle 0 TimerFired;
          Settle 0 (Resolved notes); Settle 0 (Rejected message) ] w = Some w'
    /\ status (current w') = status_error
    /\ error (current w') = Some message
    /\ outline (auditLog (current w'))
       = [ ("Start Workflow", completed); ("Retrieve Patient Data", completed);
           ("Synthesize Clinical Notes", completed);
           ("Generate Draft Summary", entry_error) ]
    /\ synthesizedNotes (current w') = notes
    /\ draftSummary (current w') = EmptyString
    /\ suspended w' = [].
Proof.
  change [ PatientSelect X; Generate; Settle 0 TimerFired; Settle 0 TimerFired;
           Settle 0 (Resolved notes); Settle 0 (Rejected message) ]
    with ([ PatientSelect X; Generate; Settle 0 TimerFired;
            Settle 0 TimerFired ]
          ++ [ Settle 0 (Resolved notes); Settle 0 (Rejected message) ]).
  rewrite run_app, (run_to_synthesis X patient w Hstarted Hfound Hnone).
  cbn [run]. rewrite (synthesis_to_drafting X patient notes _ Hnotes).
  settle_head.
  rewrite commit_quiet by (apply runWorkflow_not_active; simpl; discriminate).
  eexists. split; [reflexivity|].
  repeat split.
Qed.

(** X15: when the synthesis collaborator resolves with the empty text the
    workflow stalls.  The "Synthesize Clinical Notes" entry is marked
    completed, but no dependency of the effect has changed, so no step is
    started: the machine is left with status running, no error, nothing
    suspended and nothing in progress, and no timer or collaborator can
    move it any more. *)
Theorem empty_synthesis_stalls (X : string) (patient : Patient) (w : World)
    (Hstarted : truthy X = true)
    (Hfound : getPatientData X = Some patient)
    (Hnone : suspended w = []) :
  exists w',
    run [ PatientSelect X; Generate; Settle 0 TimerFired; Settle 0 TimerFired;
          Settle 0 (Resolved EmptyString) ] w = Some w'
    /\ status (current w') = running
    /\ error (current w') = None
    /\ outline (auditLog (current w'))
       = [ ("Start Workflow", completed); ("Retrieve Patient Data", completed);
           ("Synthesize Clinical Notes", completed) ]
    /\ suspended w' = []
    /\ forall i o, dispatch (Settle i o) w' = None.
Proof.
  change [ PatientSelect X; Generate; Settle 0 TimerFired; Settle 0 TimerFired;
           Settle 0 (Resolved EmptyString) ]
    with ([ PatientSelect X; Generate; Settle 0 TimerFired;
            Settle 0 TimerFired ] ++ [ Settle 0 (Resolved EmptyString) ]).
  rewrite run_app, (run_to_synthesis X patient w Hstarted Hfound Hnone).
  cbn [run]. settle_head.
  rewrite commit_unchanged_deps by reflexivity.
  eexists. split; [reflexivity|].
  repeat split.
Qed.

Lemma dispatch_approve w :
  dispatch Approve w
  = Some (commit (current w) (setCurrent (handleApprove (current w)) w)).
Proof. reflexivity. Qed.

(** X8: on the happy path the audit log names exactly the steps of
    [ALL_WORKFLOW_STEPS], in that order, once each, and every entry is
    completed. *)
Theorem happy_path_log_is_all_steps (X : string) (patient : Patient)
    (notes draft : string) (w : World)
    (Hstarted : truthy X = true)
    (Hfound : getPatientData X = Some patient)
    (Hnotes : truthy notes = true)
    (Hdraft : truthy draft = true)
    (Hnone : suspended w = []) :
  exists w',
    run [ PatientSelect X; Generate; Settle 0 TimerFired; Settle 0 TimerFired;
          Settle 0 (Resolved notes); Settle 0 (Resolved draft); Approve;
          Settle 0 TimerFired ] w = Some w'
    /\ map step (auditLog (current w')) = ALL_WORKFLOW_STEPS
    /\ Forall (fun e => entryStatus e = completed) (auditLog (current w'))
    /\ map timestamp (auditLog (current w'))
       = map (fun k => clock (k + clockReads w)) (seq 0 7).
Proof.
  change [ PatientSelect X; Generate; Settle 0 TimerFired; Settle 0 TimerFired;
           Settle 0 (Resolved notes); Settle 0 (Resolved draft); Approve;
           Settle 0 TimerFired ]
    with ([ PatientSelect X; Generate; Settle 0 TimerFired;
            Settle 0 TimerFired ]
          ++ [ Settle 0 (Resolved notes); Settle 0 (Resolved draft); Approve;
               Settle 0 TimerFired ]).
  rewrite run_app, (run_to_synthesis X patient w Hstarted Hfound Hnone).
  cbn [run]. rewrite (synthesis_to_drafting X patient notes _ Hnotes).
  settle_head.
  rewrite commit_quiet by (apply runWorkflow_not_active; simpl; discriminate).
  rewrite dispatch_approve. cbn [current].
  erewrite commit_run; cycle 1.
  { deps_status. }
  { simpl. discriminate. }
  { apply runWorkflow_finalize;
      [reflexivity|simpl; discriminate|exact Hnotes|exact Hdraft|reflexivity]. }
  unfold applyUpdates.
  cbn [spawn fold_left applyUpdate current suspended clockReads app setCurrent].
  settle_head.
  rewrite commit_quiet by (apply runWorkflow_not_active; simpl; discriminate).
  eexists. split; [reflexivity|].
  split; [reflexivity|]. split; [|reflexivity].
  simpl. repeat constructor.
Qed.

(** ** Suspended steps outlive the run that started them *)

(** X10: re-selection and generate do not cancel a suspended step.  When
    the patient lookup of an earlier run is still waiting and a workflow is
    started for another patient [Y], the old lookup writes its record [d]
    into the new run: "Start Workflow" of the new run is marked completed,
    [patientData] is the record of the earlier patient while [patientId]
    is [Y], and the synthesis is started on that record. *)
Theorem stale_lookup_feeds_next_run (Y : string) (w : World)
    (st : AgentState) (d : Patient) (rest : list Task)
    (Hstale : suspended w = AwaitLookupDelay st (Some d) :: rest)
    (Hstarted : truthy Y = true) :
  exists w',
    run [ PatientSelect Y; Generate; Settle 0 TimerFired ] w = Some w'
    /\ patientId (current w') = Some Y
    /\ patientData (current w') = Some d
    /\ status (current w') = running
    /\ outline (auditLog (current w'))
       = [ ("Start Workflow", completed);
           ("Synthesize Clinical Notes", in_progress) ]
    /\ suspended w'
       = rest ++ [ AwaitStartDelay
                     (withStatus running (withPatientId (Some Y) INITIAL_STATE));
                   AwaitSynthesis d ].
Proof.
  destruct w as [s0 ss n]. simpl in Hstale. subst ss.
  cbn [run]. rewrite dispatch_select. unfold setCurrent.
  cbn [suspended clockReads].
  rewrite (dispatch_generate_selected Y _ n Hstarted). cbn [app].
  settle_head.
  erewrite commit_run; cycle 1.
  { apply depsChanged_patientData. simpl. discriminate. }
  { simpl. discriminate. }
  { apply runWorkflow_synthesize with (patient := d);
      [reflexivity|simpl; discriminate|reflexivity|reflexivity]. }
  eexists. split; [reflexivity|].
  repeat split. simpl. rewrite <- app_assoc. reflexivity.
Qed.

(** X17: [reset()] does not cancel a suspended step either.  When the
    patient lookup is still waiting at the reset and then settles, the
    record it found is stored in the state that was just reset: the state
    is idle with no patient id and an empty log, but it is no longer the
    initial state. *)
Theorem reset_does_not_cancel_lookup (w : World)
    (st : AgentState) (d : Patient) (rest : list Task)
    (Hstale : suspended w = AwaitLookupDelay st (Some d) :: rest) :
  run [ Reset; Settle 0 TimerFired ] w
  = Some {| current := withPatientData (Some d) INITIAL_STATE;
            suspended := rest; clockReads := clockReads w |}
  /\ withPatientData (Some d) INITIAL_STATE <> INITIAL_STATE.
Proof.
  split; [|discriminate].
  destruct w as [s0 ss n]. simpl in Hstale. subst ss.
  cbn [run dispatch]. rewrite commit_quiet by reflexivity.
  unfold setCurrent. cbn [suspended clockReads current lookup list_lookup].
  cbn [resume].
  rewrite commit_quiet by reflexivity.
  reflexivity.
Qed.

(** X14: in a run without edit requests, whenever the status is
    awaiting_approval the machine is at rest: no step is suspended, no audit
    entry is in_progress, notes are present and nothing has been finalized
    yet. *)
Theorem waiting_for_review_is_quiet (w : World)
    (Hreach : reachableWithoutEdits clock getPatientData w)
    (Hwait : status (current w) = awaiting_approval) :
  suspended w = []
  /\ inProgressCount (auditLog (current w)) = 0
  /\ truthy (synthesizedNotes (current w)) = true
  /\ finalSummary (current w) = EmptyString.
Proof.
  destruct (reachableWithoutEdits_Phase w Hreach); simpl in Hwait;
    try congruence.
  repeat split; assumption.
Qed.

End OrchestratorFacts.

(** * Concrete runs *)

(** Patient "P1", notes "N", draft "D1". *)
Lemma happy_path_finishes_witness :
  exists w0 w1 w2 w3,
    run sampleClock sampleGateway [ PatientSelect "P1"; Generate ] mounted
    = Some w0
    /\ settles sampleClock sampleGateway (constantCollaborators "N" "D1") w0 w1
    /\ status (current w1) = awaiting_approval
    /\ dispatch sampleClock sampleGateway Approve w1 = Some w2
    /\ settles sampleClock sampleGateway (constantCollaborators "N" "D1") w2 w3
    /\ suspended w3 = []
    /\ status (current w3) = finished
    /\ finalSummary (current w3) = draftSummary (current w3)
    /\ draftSummary (current w3) = "D1"
    /\ last (auditLog (current w3))
       = Some {| step := "Workflow Complete"; entryStatus := completed;
                 details := "Process finished successfully.";
                 timestamp := sampleClock (6 + clockReads mounted) |}.
Proof.
  apply (happy_path_finishes sampleClock sampleGateway "P1" samplePatient
           "N" "D1" (constantCollaborators "N" "D1") mounted);
    reflexivity.
Defined.

(** C4, counterexample: the draft collaborator returns the empty text.  The
    review is reached and [approve()] is called, but the machine drafts
    again instead of finalizing, and comes to rest waiting for approval once
    more: the status is not finished. *)
Lemma happy_path_fails_on_empty_draft :
  ~ happyPathClaim sampleClock sampleGateway
      (constantCollaborators "N" EmptyString) "P1".
Proof.
  intros H.
  pose (c := constantCollaborators "N" EmptyString).
  destruct (run sampleClock sampleGateway [ PatientSelect "P1"; Generate ]
              mounted) as [w0|] eqn:E0; [|vm_compute in E0; discriminate].
  destruct (settleAll sampleClock sampleGateway 8 c w0) as [w1|] eqn:E1.
  2:{ vm_compute in E0. injection E0 as <-. vm_compute in E1. discriminate. }
  destruct (dispatch sampleClock sampleGateway Approve w1) as [w2|] eqn:E2;
    [|discriminate].
  destruct (settleAll sampleClock sampleGateway 8 c w2) as [w3|] eqn:E3.
  2:{ vm_compute in E0. injection E0 as <-. vm_compute in E1.
      injection E1 as <-. vm_compute in E2. injection E2 as <-.
      vm_compute in E3. discriminate. }
  destruct (H samplePatient "N" EmptyString w0 w1 w2 w3 eq_refl eq_refl
              (fun _ => eq_refl) (fun _ _ _ => eq_refl) E0
              (settleAll_settles _ _ _ _ _ _ E1) E2
              (settleAll_settles _ _ _ _ _ _ E3)) as [Hfinished _].
  vm_compute in E0. injection E0 as <-. vm_compute in E1.
  injection E1 as <-. vm_compute in E2. injection E2 as <-.
  vm_compute in E3. injection E3 as <-.
  vm_compute in Hfinished. discriminate.
Qed.

Lemma awaitingReview_reached :
  run sampleClock sampleGateway
    [ PatientSelect "P1"; Generate; Settle 0 TimerFired; Settle 0 TimerFired;
      Settle 0 (Resolved "N"); Settle 0 (Resolved "D1") ] mounted
  = Some awaitingReview
  /\ status (current awaitingReview) = awaiting_approval
  /\ draftSummary (current awaitingReview) = "D1"
  /\ suspended awaitingReview = [].
Proof. vm_compute. repeat split. Qed.

(** C3, on the code: the edit cycle with a draft collaborator that answers
    before the 500 ms finalize timer fires.  [requestEdits] leaves two steps
    suspended, the regeneration and "Finalize Summary".  When the draft "D2"
    arrives the state is the one the specification describes, but the
    machine is not at rest: the timer fires and the summary is finalized
    without a second review. *)
Theorem edit_cycle_finalizes_without_review :
  exists w1 w2 w3,
    dispatch sampleClock sampleGateway (RequestEdits "add allergy info")
      awaitingReview = Some w1
    /\ suspended w1
       = [ AwaitDraft "Regenerate Draft" "N" (Some samplePatient)
             "add allergy info";
           AwaitFinalizeDelay ]
    /\ inProgressCount (auditLog (current w1)) = 2
    /\ dispatch sampleClock sampleGateway (Settle 0 (Resolved "D2")) w1
       = Some w2
    /\ status (current w2) = awaiting_approval
    /\ draftSummary (current w2) = "D2"
    /\ editRequest (current w2) = EmptyString
    /\ suspended w2 = [ AwaitFinalizeDelay ]
    /\ dispatch sampleClock sampleGateway (Settle 0 TimerFired) w2 = Some w3
    /\ suspended w3 = []
    /\ status (current w3) = finished
    /\ finalSummary (current w3) = "D2"
    /\ outline (auditLog (current w3))
       = [ ("Start Workflow", completed); ("Retrieve Patient Data", completed);
           ("Synthesize Clinical Notes", completed);
           ("Generate Draft Summary", completed); ("Human Review", completed);
           ("Regenerate Draft", completed); ("Finalize Summary", completed);
           ("Human Review", human_input); ("Workflow Complete", completed) ].
Proof.
  eexists. eexists. eexists.
  split; [vm_compute; reflexivity|].
  split; [reflexivity|].
  split; [reflexivity|].
  split; [vm_compute; reflexivity|].
  repeat split.
Qed.

(** The other order: the finalize timer fires before the draft arrives.
    The machine comes to rest waiting for approval with draft "D2", as the
    specification says, but the old draft "D1" has been finalized meanwhile
    and the log holds completed "Finalize Summary" and "Workflow Complete"
    entries. *)
Lemma edit_cycle_timer_first :
  exists w,
    run sampleClock sampleGateway
      [ RequestEdits "add allergy info"; Settle 1 TimerFired;
        Settle 0 (Resolved "D2") ] awaitingReview = Some w
    /\ suspended w = []
    /\ status (current w) = awaiting_approval
    /\ draftSummary (current w) = "D2"
    /\ editRequest (current w) = EmptyString
    /\ finalSummary (current w) = "D1"
    /\ outline (auditLog (current w))
       = [ ("Start Workflow", completed); ("Retrieve Patient Data", completed);
           ("Synthesize Clinical Notes", completed);
           ("Generate Draft Summary", completed); ("Human Review", completed);
           ("Regenerate Draft", completed); ("Finalize Summary", completed);
           ("Workflow Complete", completed); ("Human Review", human_input) ].
Proof. eexists. split; [vm_compute; reflexivity|]. repeat split. Qed.

(** C2, counterexample: while step 1 waits on the patient lookup, "Start
    Workflow" and "Retrieve Patient Data" are both in_progress. *)
Lemma two_entries_in_progress :
  ~ singleInProgress sampleClock sampleGateway.
Proof.
  intros H.
  specialize (H (worldAfter [ PatientSelect "P1"; Generate;
                              Settle 0 TimerFired ])).
  assert (Hr : reachable sampleClock sampleGateway
                 (worldAfter [ PatientSelect "P1"; Generate;
                               Settle 0 TimerFired ])).
  { exists [ PatientSelect "P1"; Generate; Settle 0 TimerFired ].
    vm_compute. reflexivity. }
  specialize (H Hr). vm_compute in H. lia.
Qed.

(** The bound at the snapshot where it is reached. *)
Lemma in_progress_bound_witness :
  inProgressCount
    (auditLog (current (worldAfter [ PatientSelect "P1"; Generate;
                                     Settle 0 TimerFired ]))) <= 2
  /\ (awaitingLookup (worldAfter [ PatientSelect "P1"; Generate;
                                   Settle 0 TimerFired ]) = false ->
      inProgressCount
        (auditLog (current (worldAfter [ PatientSelect "P1"; Generate;
                                         Settle 0 TimerFired ]))) <= 1).
Proof.
  apply (in_progress_bound sampleClock sampleGateway).
  apply (rwe_step sampleClock sampleGateway
           (worldAfter [ PatientSelect "P1"; Generate ])
           (Settle 0 TimerFired)); [|exact I|vm_compute; reflexivity].
  apply (rwe_step sampleClock sampleGateway
           (setCurrent (handlePatientSelect "P1" (current mounted)) mounted)
           Generate); [|reflexivity|vm_compute; reflexivity].
  apply rwe_selected. reflexivity.
Defined.

(** Patient id "X" is unknown to the sample gateway. *)
Lemma patient_not_found_witness :
  exists w',
    run sampleClock sampleGateway
      [ PatientSelect "X"; Generate; Settle 0 TimerFired; Settle 0 TimerFired ]
      mounted = Some w'
    /\ status (current w') = status_error
    /\ error (current w') = Some ("Patient ID " +:+ "X" +:+ " not found.")
    /\ auditLog (current w')
       = [ {| step := "Start Workflow"; entryStatus := in_progress;
              details := "Initiating summary generation for patient: " +:+ "X";
              timestamp := sampleClock (clockReads mounted) |};
           {| step := "Retrieve Patient Data"; entryStatus := entry_error;
              details := "Patient ID " +:+ "X" +:+ " not found.";
              timestamp := sampleClock (S (clockReads mounted)) |} ]
    /\ suspended w' = [].
Proof.
  apply (patient_not_found sampleClock sampleGateway "X" mounted); reflexivity.
Defined.

(** C6, counterexample: the synthesis collaborator resolves with the empty
    text.  Step 2 has run to its end and its guard still holds. *)
Lemma empty_synthesis_keeps_guard :
  ~ ownGuardFalsified sampleClock sampleGateway.
Proof.
  intros H.
  specialize (H patientLoaded [ Resolved EmptyString ]
                (setCurrent
                   (withSynthesizedNotes EmptyString
                      (updateAuditLogStatus "Synthesize Clinical Notes"
                         completed (Some "Synthesis complete.")
                         (addAuditLog "Synthesize Clinical Notes"
                            "Using Gemini to synthesize patient data."
                            in_progress (sampleClock 2)
                            (current patientLoaded))))
                   {| current := current patientLoaded; suspended := [];
                      clockReads := 3 |})
                Synthesize eq_refl eq_refl).
  vm_compute in H. discriminate H.
Qed.

(** With the notes "N" the guard of step 2 is falsified. *)
Lemma own_guard_after_pass_witness :
  (guardOf Synthesize
     (withSynthesizedNotes "N"
        (updateAuditLogStatus "Synthesize Clinical Notes" completed
           (Some "Synthesis complete.")
           (addAuditLog "Synthesize Clinical Notes"
              "Using Gemini to synthesize patient data." in_progress
              (sampleClock 2) (current patientLoaded)))) = true
   <-> Synthesize = Synthesize /\ [ Resolved "N" ] = [ Resolved EmptyString ]).
Proof.
  exact (proj1 (own_guard_after_pass sampleClock sampleGateway patientLoaded
                  {| current :=
                       withSynthesizedNotes "N"
                         (updateAuditLogStatus "Synthesize Clinical Notes"
                            completed (Some "Synthesis complete.")
                            (addAuditLog "Synthesize Clinical Notes"
                               "Using Gemini to synthesize patient data."
                               in_progress (sampleClock 2)
                               (current patientLoaded)));
                     suspended := []; clockReads := 3 |}
                  [ Resolved "N" ] Synthesize eq_refl eq_refl)).
Defined.

(** [approve()] on the reviewed draft: seven entries kept, one appended. *)
Lemma audit_log_append_only_witness :
  length (auditLog (current awaitingReview))
  <= length (auditLog (current approvedReview))
  /\ (forall i old, auditLog (current awaitingReview) !! i = Some old ->
        exists new, auditLog (current approvedReview) !! i = Some new
                    /\ step new = step old
                    /\ timestamp new = timestamp old)
  /\ (forall stepName status details s,
        map entryKey (auditLog (updateAuditLogStatus stepName status details s))
        = map entryKey (auditLog s))
  /\ (forall step details status ts s,
        auditLog (addAuditLog step details status ts s)
        = auditLog s ++ [ {| step := step; entryStatus := status;
                             details := details; timestamp := ts |} ]).
Proof.
  apply (audit_log_append_only sampleClock sampleGateway Approve
           awaitingReview approvedReview); [exact I|vm_compute; reflexivity].
Defined.

(** [generate()] right after the mount. *)
Lemma generate_without_patient_is_noop_witness :
  dispatch sampleClock sampleGateway Generate mounted = Some mounted
  /\ handleGenerate (current mounted) = current mounted.
Proof.
  apply (generate_without_patient_is_noop sampleClock sampleGateway mounted).
  reflexivity.
Defined.

(** ** Witnesses of the further properties *)

(** No entry of [twoReviews] is a "Finalize Summary". *)
Lemma updateAuditLogStatus_missing_step_witness :
  updateAuditLogStatus "Finalize Summary" completed
    (Some "Discharge summary is complete.") twoReviews = twoReviews.
Proof.
  apply (updateAuditLogStatus_missing_step "Finalize Summary" completed
           (Some "Discharge summary is complete.") twoReviews).
  repeat constructor; simpl; discriminate.
Defined.

Lemma update_commutes_with_append_witness :
  updateAuditLogStatus "Human Review" completed None
    (addAuditLog "Regenerate Draft"
       "Applying requested edits and regenerating summary." in_progress
       "10:00:10" twoReviews)
  = addAuditLog "Regenerate Draft"
      "Applying requested edits and regenerating summary." in_progress
      "10:00:10" (updateAuditLogStatus "Human Review" completed None twoReviews).
Proof.
  apply (update_commutes_with_append "Human Review" completed None
           "Regenerate Draft"
           "Applying requested edits and regenerating summary." in_progress
           "10:00:10" twoReviews).
  discriminate.
Defined.

Lemma generate_clears_and_starts_witness :
  dispatch sampleClock sampleGateway Generate (worldAfter [ PatientSelect "P1" ])
  = Some {| current :=
              addAuditLog "Start Workflow"
                ("Initiating summary generation for patient: " +:+ "P1")
                in_progress
                (sampleClock (clockReads (worldAfter [ PatientSelect "P1" ])))
                (withStatus running (withPatientId (Some "P1") INITIAL_STATE));
            suspended :=
              suspended (worldAfter [ PatientSelect "P1" ])
              ++ [ AwaitStartDelay
                     (withStatus running
                        (withPatientId (Some "P1") INITIAL_STATE)) ];
            clockReads := S (clockReads (worldAfter [ PatientSelect "P1" ])) |}.
Proof.
  apply (proj1 (generate_clears_and_starts sampleClock sampleGateway "P1"
                  (worldAfter [ PatientSelect "P1" ]) eq_refl eq_refl)).
  vm_compute. discriminate.
Defined.

Lemma synthesis_failure_witness :
  exists w',
    run sampleClock sampleGateway
      [ PatientSelect "P1"; Generate; Settle 0 TimerFired; Settle 0 TimerFired;
        Settle 0 (Rejected "quota exceeded") ] mounted = Some w'
    /\ status (current w') = status_error
    /\ error (current w') = Some "quota exceeded"
    /\ outline (auditLog (current w'))
       = [ ("Start Workflow", completed); ("Retrieve Patient Data", completed);
           ("Synthesize Clinical Notes", entry_error) ]
    /\ details <$> last (auditLog (current w'))
       = Some (if truthy "quota exceeded" then "quota exceeded"
               else "Using Gemini to synthesize patient data.")
    /\ errorBannerShown (current w') = truthy "quota exceeded"
    /\ synthesizedNotes (current w') = EmptyString
    /\ suspended w' = [].
Proof.
  apply (synthesis_failure sampleClock sampleGateway "P1" samplePatient
           "quota exceeded" mounted); reflexivity.
Defined.

Lemma draft_failure_witness :
  exists w',
    run sampleClock sampleGateway
      [ PatientSelect "P1"; Generate; Settle 0 TimerFired; Settle 0 TimerFired;
        Settle 0 (Resolved "N"); Settle 0 (Rejected "quota exceeded") ]
      mounted = Some w'
    /\ status (current w') = status_error
    /\ error (current w') = Some "quota exceeded"
    /\ outline (auditLog (current w'))
       = [ ("Start Workflow", completed); ("Retrieve Patient Data", completed);
           ("Synthesize Clinical Notes", completed);
           ("Generate Draft Summary", entry_error) ]
    /\ synthesizedNotes (current w') = "N"
    /\ draftSummary (current w') = EmptyString
    /\ suspended w' = [].
Proof.
  apply (draft_failure sampleClock sampleGateway "P1" samplePatient "N"
           "quota exceeded" mounted); reflexivity.
Defined.

Lemma empty_synthesis_stalls_witness :
  exists w',
    run sampleClock sampleGateway
      [ PatientSelect "P1"; Generate; Settle 0 TimerFired; Settle 0 TimerFired;
        Settle 0 (Resolved EmptyString) ] mounted = Some w'
    /\ status (current w') = running
    /\ error (current w') = None
    /\ outline (auditLog (current w'))
       = [ ("Start Workflow", completed); ("Retrieve Patient Data", completed);
           ("Synthesize Clinical Notes", completed) ]
    /\ suspended w' = []
    /\ forall i o, dispatch sampleClock sampleGateway (Settle i o) w' = None.
Proof.
  apply (empty_synthesis_stalls sampleClock sampleGateway "P1" samplePatient
           mounted); reflexivity.
Defined.

Lemma happy_path_log_is_all_steps_witness :
  exists w',
    run sampleClock sampleGateway
      [ PatientSelect "P1"; Generate; Settle 0 TimerFired; Settle 0 TimerFired;
        Settle 0 (Resolved "N"); Settle 0 (Resolved "D1"); Approve;
        Settle 0 TimerFired ] mounted = Some w'
    /\ map step (auditLog (current w')) = ALL_WORKFLOW_STEPS
    /\ Forall (fun e => entryStatus e = completed) (auditLog (current w'))
    /\ map timestamp (auditLog (current w'))
       = map (fun k => sampleClock (k + clockReads mounted)) (seq 0 7).
Proof.
  apply (happy_path_log_is_all_steps sampleClock sampleGateway "P1"
           samplePatient "N" "D1" mounted); reflexivity.
Defined.

(** The lookup of "P1" is still waiting when "P2" is selected and started. *)
Lemma stale_lookup_feeds_next_run_witness :
  exists w',
    run sampleClock sampleGateway
      [ PatientSelect "P2"; Generate; Settle 0 TimerFired ] lookupPending
    = Some w'
    /\ patientId (current w') = Some "P2"
    /\ patientData (current w') = Some samplePatient
    /\ status (current w') = running
    /\ outline (auditLog (current w'))
       = [ ("Start Workflow", completed);
           ("Synthesize Clinical Notes", in_progress) ]
    /\ suspended w'
       = [] ++ [ AwaitStartDelay
                   (withStatus running
                      (withPatientId (Some "P2") INITIAL_STATE));
                 AwaitSynthesis samplePatient ].
Proof.
  apply (stale_lookup_feeds_next_run sampleClock sampleGateway "P2"
           lookupPending
           (withStatus running (withPatientId (Some "P1") INITIAL_STATE))
           samplePatient []); reflexivity.
Defined.

Lemma reset_does_not_cancel_lookup_witness :
  run sampleClock sampleGateway [ Reset; Settle 0 TimerFired ] lookupPending
  = Some {| current := withPatientData (Some samplePatient) INITIAL_STATE;
            suspended := []; clockReads := clockReads lookupPending |}
  /\ withPatientData (Some samplePatient) INITIAL_STATE <> INITIAL_STATE.
Proof.
  apply (reset_does_not_cancel_lookup sampleClock sampleGateway lookupPending
           (withStatus running (withPatientId (Some "P1") INITIAL_STATE))
           samplePatient []); reflexivity.
Defined.


Lemma patientId_fixed_within_run_witness :
  patientId (current approvedReview) = patientId (current awaitingReview).
Proof.
  apply (patientId_fixed_within_run sampleClock sampleGateway Approve
           awaitingReview approvedReview);
    [exact I|vm_compute; reflexivity].
Defined.

(** The finalize timer of the approved draft fires. *)
Lemma finalSummary_written_by_finalize_witness :
  finalSummary (current (worldAfter
    [ PatientSelect "P1"; Generate; Settle 0 TimerFired; Settle 0 TimerFired;
      Settle 0 (Resolved "N"); Settle 0 (Resolved "D1"); Approve;
      Settle 0 TimerFired ]))
  = finalSummary (current approvedReview)
  \/ (exists i, Settle 0 TimerFired = Settle i TimerFired
                /\ suspended approvedReview !! i = Some AwaitFinalizeDelay
                /\ finalSummary (current (worldAfter
                     [ PatientSelect "P1"; Generate; Settle 0 TimerFired;
                       Settle 0 TimerFired; Settle 0 (Resolved "N");
                       Settle 0 (Resolved "D1"); Approve;
                       Settle 0 TimerFired ]))
                   = draftSummary (current approvedReview)
                /\ status (current (worldAfter
                     [ PatientSelect "P1"; Generate; Settle 0 TimerFired;
                       Settle 0 TimerFired; Settle 0 (Resolved "N");
                       Settle 0 (Resolved "D1"); Approve;
                       Settle 0 TimerFired ])) = finished).
Proof.
  apply (finalSummary_written_by_finalize sampleClock sampleGateway
           (Settle 0 TimerFired) approvedReview);
    [exact I|vm_compute; reflexivity].
Defined.

Lemma waiting_for_review_is_quiet_witness :
  suspended awaitingReview = []
  /\ inProgressCount (auditLog (current awaitingReview)) = 0
  /\ truthy (synthesizedNotes (current awaitingReview)) = true
  /\ finalSummary (current awaitingReview) = EmptyString.
Proof.
  apply (waiting_for_review_is_quiet sampleClock sampleGateway awaitingReview);
    [|reflexivity].
  apply (rwe_step sampleClock sampleGateway
           (worldAfter [ PatientSelect "P1"; Generate; Settle 0 TimerFired;
                         Settle 0 TimerFired; Settle 0 (Resolved "N") ])
           (Settle 0 (Resolved "D1"))); [|exact I|vm_compute; reflexivity].
  apply (rwe_step sampleClock sampleGateway
           (worldAfter [ PatientSelect "P1"; Generate; Settle 0 TimerFired;
                         Settle 0 TimerFired ])
           (Settle 0 (Resolved "N"))); [|exact I|vm_compute; reflexivity].
  apply (rwe_step sampleClock sampleGateway lookupPending
           (Settle 0 TimerFired)); [|exact I|vm_compute; reflexivity].
  apply (rwe_step sampleClock sampleGateway
           (worldAfter [ PatientSelect "P1"; Generate ])
           (Settle 0 TimerFired)); [|exact I|vm_compute; reflexivity].
  apply (rwe_step sampleClock sampleGateway
           (setCurrent (handlePatientSelect "P1" (current mounted)) mounted)
           Generate); [|reflexivity|vm_compute; reflexivity].
  apply rwe_selected. reflexivity.
Defined.
